(** * A verification model of the network plugin (src/network.c)

    The plugin keeps a registry of interface records, fills it from a
    netlink link dump, merges the datastore configuration into it, pushes
    the result to the UCI configuration store and restarts the network.

    Conventions of the model.
    - C [int] return codes are [Z]; [SR_ERR_OK] and [UCI_OK] are [0].
    - The intrusive list [struct list_head] is a Rocq [list] read in
      iteration order ([list_for_each_entry] walks it front to back).
    - Library calls whose outcome is decided outside the plugin (sysrepo,
      netlink, [fork], [popen]) read their outcome from an explicit
      environment argument.
    - The logging macros ([INF], [WRN], [ERR], [printf]) have no effect
      on the state and are left out.
    - Where the plugin does on every run what the C standard leaves
      undefined ([sprintf] printing into its own format, a value freed
      at the end of every turn of a loop), the module [Process] follows
      the source with the library's answer taken from outside and with
      the end of the process as a possible outcome. *)

From Stdlib Require Import ZArith String Ascii List Bool Lia.
From stdpp Require Import base tactics option list strings pretty gmap.
Import ListNotations.

Local Open Scope string_scope.
Local Open Scope list_scope.
Local Open Scope Z_scope.

(** ** Formatting *)

(** [sprintf] restricted to the [%s] conversion, the only one found in
    the plugin's formats: each [%s] consumes the next argument; surplus
    arguments are ignored, as in C. *)
Fixpoint sprintf (fmt : string) (args : list string) : string :=
  match fmt with
  | EmptyString => EmptyString
  | String "%"%char (String "s"%char rest) =>
      match args with
      | a :: args' => a +:+ sprintf rest args'
      | [] => sprintf rest []
      end
  | String c rest => String c (sprintf rest args)
  end.

(** ** Data model (network.h) *)

(** The provenance vocabulary of an address. *)
Inductive ip_origin :=
  | ORIGIN_STATIC | ORIGIN_DHCP | ORIGIN_LINK_LAYER
  | ORIGIN_RANDOM | ORIGIN_OTHER | ORIGIN_UNKNOWN.

Record ip_subnet := { prefix_length : Z }.

Record ip_address := { ip : string; subnet : ip_subnet }.

Record ip_v4 := {
  enabled : bool;
  forwarding : bool;
  origin : ip_origin;
  mtu : Z;
  address : ip_address
}.

Record if_proto := { ipv4 : ip_v4 }.

(** [name] and [type] are [char *] and may be [NULL]. [proto.ipv4] is
    allocated for every record by [make_interface_ipv4] and is never
    released, so it is held by value. *)
Record if_interface := {
  name : option string;
  type : option string;
  description : string;
  proto : if_proto
}.

(** Field updates [iface->proto.ipv4->f = x]. *)
Definition with_ipv4 (f : ip_v4 -> ip_v4) (iface : if_interface) : if_interface :=
  {| name := name iface; type := type iface; description := description iface;
     proto := {| ipv4 := f (ipv4 (proto iface)) |} |}.

Definition set_enabled (b : bool) : if_interface -> if_interface :=
  with_ipv4 (fun p => {| enabled := b; forwarding := forwarding p; origin := origin p;
                         mtu := mtu p; address := address p |}).

Definition set_forwarding (b : bool) : if_interface -> if_interface :=
  with_ipv4 (fun p => {| enabled := enabled p; forwarding := b; origin := origin p;
                         mtu := mtu p; address := address p |}).

Definition set_origin_field (o : ip_origin) : if_interface -> if_interface :=
  with_ipv4 (fun p => {| enabled := enabled p; forwarding := forwarding p; origin := o;
                         mtu := mtu p; address := address p |}).

Definition set_mtu_field (m : Z) : if_interface -> if_interface :=
  with_ipv4 (fun p => {| enabled := enabled p; forwarding := forwarding p; origin := origin p;
                         mtu := m; address := address p |}).

Definition set_address_ip (s : string) : if_interface -> if_interface :=
  with_ipv4 (fun p => {| enabled := enabled p; forwarding := forwarding p; origin := origin p;
                         mtu := mtu p;
                         address := {| ip := s; subnet := subnet (address p) |} |}).

Definition set_prefix_length (n : Z) : if_interface -> if_interface :=
  with_ipv4 (fun p => {| enabled := enabled p; forwarding := forwarding p; origin := origin p;
                         mtu := mtu p;
                         address := {| ip := ip (address p);
                                       subnet := {| prefix_length := n |} |} |}).

(** ** Kernel discovery *)

(** One routing attribute of a link message, and the message itself:
    the [ifinfomsg] header followed by its attributes. *)
Record rtattr := { rta_type : Z; rta_data : string }.

Record nl_msg := { ifi_index : Z; ifi_attrs : list rtattr }.

Definition IFLA_IFNAME : Z := 3.

(** [calloc] leaves [0] in the [origin] field. The enumeration is
    declared in network.h, not in network.c, so the member of value [0]
    is an argument. *)
Definition make_interface_ipv4 (origin_zero : ip_origin) (name : string) : if_interface :=
  {| name := Some name;
     type := None;
     description := "";
     proto := {| ipv4 := {| enabled := true; forwarding := false; origin := origin_zero;
                            mtu := 0;
                            address := {| ip := "";
                                          subnet := {| prefix_length := 0 |} |} |} |} |}.

(** [list_add(new, head)] links [new] right after [head]: the new entry
    becomes the first one met by [list_for_each_entry]. *)
Definition list_add {A} (new : A) (head : list A) : list A := new :: head.

(** The attribute walk [while (RTA_OK(hdr, remaining)) ... RTA_NEXT]. *)
Definition ls_interfaces_cb (origin_zero : ip_origin) (msg : nl_msg)
    (interfaces : list if_interface) : list if_interface :=
  fold_left
    (fun interfaces hdr =>
       if rta_type hdr =? IFLA_IFNAME
       then list_add (make_interface_ipv4 origin_zero (rta_data hdr)) interfaces
       else interfaces)
    (ifi_attrs msg) interfaces.

(** [nl_recvmsgs_default] hands every valid message of the kernel's
    answer to the installed callback, in the order received. *)
Definition nl_recvmsgs_default {A} (cb : nl_msg -> A -> A) (answer : list nl_msg) (arg : A) : A :=
  fold_left (fun arg msg => cb msg arg) answer arg.

(** The interface names of an answer, in kernel response order. *)
Definition answer_names (answer : list nl_msg) : list string :=
  flat_map (fun msg => map rta_data
                         (List.filter (fun hdr => rta_type hdr =? IFLA_IFNAME) (ifi_attrs msg)))
    answer.

(** Distinct names in the order first seen. *)
Fixpoint first_seen (seen : list string) (names : list string) : list string :=
  match names with
  | [] => []
  | n :: names' =>
      if bool_decide (n ∈ seen) then first_seen seen names'
      else n :: first_seen (n :: seen) names'
  end.

(** ** The datastore boundary (sysrepo) *)

Definition SR_ERR_OK : Z := 0.
Definition SR_ERR_NOT_FOUND : Z := 3.
Definition SR_ERR_INTERNAL : Z := 4.

Inductive sr_type_t :=
  | SR_UNKNOWN_T | SR_BOOL_T | SR_ENUM_T | SR_IDENTITYREF_T | SR_STRING_T
  | SR_UINT8_T | SR_UINT16_T | SR_UINT32_T | SR_UINT64_T.

(** The [data] union of [sr_val_t]. Its string members ([string_val],
    [enum_val], [identityref_val]) are one pointer and its unsigned
    members share their low-order bytes, so the union is a zeroed cell, a
    boolean, a string or an unsigned number, read through the views below. *)
Inductive sr_data_t :=
  | data_zero
  | data_bool (b : bool)
  | data_string (s : string)
  | data_uint (n : Z).

Definition bool_val (d : sr_data_t) : bool :=
  match d with data_bool b => b | _ => false end.

Definition string_val (d : sr_data_t) : string :=
  match d with data_string s => s | _ => "" end.

Definition enum_val : sr_data_t -> string := string_val.

Definition uint_view (bits : Z) (d : sr_data_t) : Z :=
  match d with data_uint n => n mod 2 ^ bits | _ => 0 end.

Definition uint8_val : sr_data_t -> Z := uint_view 8.
Definition uint16_val : sr_data_t -> Z := uint_view 16.
Definition uint32_val : sr_data_t -> Z := uint_view 32.
Definition uint64_val : sr_data_t -> Z := uint_view 64.

Record sr_val_t := {
  val_xpath : option string;
  val_type : sr_type_t;
  val_data : sr_data_t
}.

(** A session answers [sr_get_item(sess, xpath, &val)] with the return
    code and the value [val] points to afterwards; the value is read by
    the plugin only when the code is [SR_ERR_OK]. *)
Definition sr_session_ctx_t := string -> Z * sr_val_t.

Definition sr_get_item (sess : sr_session_ctx_t) (xpath : string) : Z * sr_val_t :=
  sess xpath.

(** Modelled from the spec: [string_to_origin], defined outside
    network.c, reads the textual form of an origin over the vocabulary
    static, dhcp, link-layer, random, other, unknown. *)
Definition string_to_origin (s : string) : ip_origin :=
  if String.eqb s "static" then ORIGIN_STATIC
  else if String.eqb s "dhcp" then ORIGIN_DHCP
  else if String.eqb s "link-layer" then ORIGIN_LINK_LAYER
  else if String.eqb s "random" then ORIGIN_RANDOM
  else if String.eqb s "other" then ORIGIN_OTHER
  else ORIGIN_UNKNOWN.

(** Modelled from the spec: [origin_to_string], defined outside
    network.c, is the textual form of an origin, the converse of
    [string_to_origin]. *)
Definition origin_to_string (o : ip_origin) : string :=
  match o with
  | ORIGIN_STATIC => "static"
  | ORIGIN_DHCP => "dhcp"
  | ORIGIN_LINK_LAYER => "link-layer"
  | ORIGIN_RANDOM => "random"
  | ORIGIN_OTHER => "other"
  | ORIGIN_UNKNOWN => "unknown"
  end.

(** ** The configuration-store boundary (UCI) *)

Definition UCI_OK : Z := 0.
Definition UCI_ERR_IO : Z := 4.

(** The options of package [network], keyed by section and option name,
    and the writes the backend refuses. *)
Record uci_context := {
  uci_options : gmap (string * string) string;
  uci_refused : string -> string -> bool
}.

(** The option names and the spelling of the operational state used by
    the setters; they are fixed in the setters' source file. *)
Record uci_names := {
  opt_operstate : string;
  opt_origin : string;
  opt_mtu : string;
  opt_ip4 : string;
  operstate_string : bool -> string
}.

(** Modelled from the spec: the configuration store's "set option
    value" operation on the record of one section. A refused write
    reports an error and changes nothing. *)
Definition uci_set (uctx : uci_context) (section option value : string) : Z * uci_context :=
  if uci_refused uctx section option then (UCI_ERR_IO, uctx)
  else (UCI_OK, {| uci_options := <[(section, option) := value]> (uci_options uctx);
                   uci_refused := uci_refused uctx |}).

(** Modelled from the spec: [set_operstate], defined outside
    network.c, writes the operational-state option of the section named
    by the interface type. *)
Definition set_operstate (k : uci_names) (uctx : uci_context) (type : string)
    (operstate : bool) : Z * uci_context :=
  uci_set uctx type (opt_operstate k) (operstate_string k operstate).

(** Modelled from the spec: [set_origin], defined outside network.c,
    writes the origin option of that section. *)
Definition set_origin (k : uci_names) (uctx : uci_context) (type : string)
    (origin : string) : Z * uci_context :=
  uci_set uctx type (opt_origin k) origin.

(** Modelled from the spec: [set_mtu], defined outside network.c,
    writes the mtu option of that section, in decimal. *)
Definition set_mtu (k : uci_names) (uctx : uci_context) (type : string)
    (mtu : Z) : Z * uci_context :=
  uci_set uctx type (opt_mtu k) (pretty mtu).

(** Modelled from the spec: [set_ip4], defined outside network.c,
    writes the IPv4 address option of that section. *)
Definition set_ip4 (k : uci_names) (uctx : uci_context) (type : string)
    (ip : string) : Z * uci_context :=
  uci_set uctx type (opt_ip4 k) ip.

(** ** The plugin context *)

Record plugin_ctx := {
  key : string;
  interfaces : list if_interface;
  uctx : uci_context
}.

Definition with_interfaces (l : list if_interface) (ctx : plugin_ctx) : plugin_ctx :=
  {| key := key ctx; interfaces := l; uctx := uctx ctx |}.

Definition with_uctx (u : uci_context) (ctx : plugin_ctx) : plugin_ctx :=
  {| key := key ctx; interfaces := interfaces ctx; uctx := u |}.

(** [ls_interfaces]: the link dump is requested and every message of the
    answer goes through [ls_interfaces_cb] with [ctx->interfaces]. *)
Definition ls_interfaces (origin_zero : ip_origin) (answer : list nl_msg)
    (ctx : plugin_ctx) : plugin_ctx :=
  with_interfaces
    (nl_recvmsgs_default (ls_interfaces_cb origin_zero) answer (interfaces ctx)) ctx.

(** ** Pull: datastore to model *)

Definition xpath_fmt : string :=
  "/ietf-interfaces:interfaces/interface[name='%s']/%s".

Definition xpath_fmt_ipv4 : string :=
  "/ietf-interfaces:interfaces/interface[name='%s']/ietf-ip:ipv4/%s".

(** The paths of the two address queries are built in two steps: the
    first [sprintf] leaves a [%s] inside the key predicate, and the
    second one uses the buffer as its own format, with the interface
    name as first argument. Here the format is taken as it stands
    before the buffer is rewritten, which is what the call means; since
    destination and format are the same array, the C library is not
    bound to it, and [Process.xpath_ip] and
    [Process.xpath_prefix_length] below take the text from the library
    instead. *)
Definition xpath_ip (name ip : string) : string :=
  sprintf (sprintf xpath_fmt_ipv4 [name; "address[ip='%s']/ip"]) [name; ip].

Definition xpath_prefix_length (name : string) : string :=
  sprintf (sprintf xpath_fmt_ipv4 [name; "address[ip='%s']/prefix_length"]) [name].

(** The body of the second loop of [sysrepo_to_model] for one record. *)
Definition sysrepo_to_model_iface (sess : sr_session_ctx_t) (iface : if_interface)
    : if_interface :=
  match name iface with
  | None => iface
  | Some n =>
      (* enabled *)
      let '(rc, val) := sr_get_item sess (sprintf xpath_fmt_ipv4 [n; "enabled"]) in
      let iface := if rc =? SR_ERR_OK then set_enabled (bool_val (val_data val)) iface
                   else iface in
      (* forwarding *)
      let '(rc, val) := sr_get_item sess (sprintf xpath_fmt_ipv4 [n; "forwarding"]) in
      let iface := if rc =? SR_ERR_OK then set_forwarding (bool_val (val_data val)) iface
                   else iface in
      (* origin *)
      let '(rc, val) := sr_get_item sess (sprintf xpath_fmt_ipv4 [n; "origin"]) in
      let iface := if rc =? SR_ERR_OK
                   then set_origin_field (string_to_origin (enum_val (val_data val))) iface
                   else iface in
      (* MTU *)
      let '(rc, val) := sr_get_item sess (sprintf xpath_fmt_ipv4 [n; "mtu"]) in
      let iface := if rc =? SR_ERR_OK then set_mtu_field (uint16_val (val_data val)) iface
                   else iface in
      (* name: queried, the answer is only logged *)
      let '(rc, val) := sr_get_item sess (sprintf xpath_fmt [n; "name"]) in
      (* ip *)
      let '(rc, val) := sr_get_item sess (xpath_ip n (ip (address (ipv4 (proto iface))))) in
      let iface := if rc =? SR_ERR_OK then set_address_ip (string_val (val_data val)) iface
                   else iface in
      (* prefix length *)
      let '(rc, val) := sr_get_item sess (xpath_prefix_length n) in
      let iface := if rc =? SR_ERR_OK then set_prefix_length (uint8_val (val_data val)) iface
                   else iface in
      iface
  end.

(** [sysrepo_to_model]: every record is updated in place; the function
    ends with [return SR_ERR_OK]. This is the pull as far as the merge
    goes; [Process.sysrepo_to_model] below also follows the local [val]
    and the overlapping [sprintf], through which the process can be
    ended before the return. *)
Definition sysrepo_to_model (sess : sr_session_ctx_t) (ctx : plugin_ctx) : Z * plugin_ctx :=
  (SR_ERR_OK, with_interfaces (map (sysrepo_to_model_iface sess) (interfaces ctx)) ctx).

(** ** Push: model to UCI *)

(** The body of the loop of [model_to_uci] for one record; the codes
    returned by the setters are dropped. *)
Definition model_to_uci_iface (k : uci_names) (uctx : uci_context) (iface : if_interface)
    : uci_context :=
  match type iface with
  | None => uctx
  | Some t =>
      let p := ipv4 (proto iface) in
      (* enabled *)
      let uctx := snd (set_operstate k uctx t (enabled p)) in
      (* origin *)
      let uctx := snd (set_origin k uctx t (origin_to_string (origin p))) in
      (* MTU *)
      let uctx := snd (set_mtu k uctx t (mtu p)) in
      (* ip *)
      snd (set_ip4 k uctx t (ip (address p)))
  end.

(** [model_to_uci]: [rc] is initialised to [UCI_OK] and never assigned. *)
Definition model_to_uci (k : uci_names) (ctx : plugin_ctx) : Z * plugin_ctx :=
  (UCI_OK, with_uctx (fold_left (model_to_uci_iface k) (interfaces ctx) (uctx ctx)) ctx).

(** ** Restart *)

(** What a process does to the system, and how a call ends in the
    process that runs it. *)
Inductive syscall :=
  | sys_fork
  | sys_sleep (seconds : Z)
  | sys_execv (path : string) (argv : list string)
  | sys_exit (status : Z).

Inductive outcome (A : Type) :=
  | Returns (a : A)
  | Replaced
  | Exits (status : Z).
Arguments Returns {A} a.
Arguments Replaced {A}.
Arguments Exits {A} status.

(** What the running process gets from the system: the value [fork]
    returns to it (the child's pid in the calling process, [0] in the
    new process, [-1] when no process could be created) and whether
    [execv] finds its program. *)
Record process_env := {
  fork_result : Z;
  execv_succeeds : bool
}.

Definition restart_network (wait_time : Z) (env : process_env)
    : list syscall * outcome unit :=
  let restart_pid := fork_result env in
  if restart_pid >? 0 then
    let script := "/etc/init.d/network" in
    if execv_succeeds env
    then ([sys_fork; sys_sleep wait_time; sys_execv script [script; "restart"]],
          Replaced)
    else ([sys_fork; sys_sleep wait_time; sys_execv script [script; "restart"]; sys_exit 0],
          Exits 0)
  else ([sys_fork], Returns tt).

(** ** The change-notification handler *)

Inductive sr_notif_event_t := SR_EV_VERIFY | SR_EV_APPLY | SR_EV_ABORT.

Definition is_verify (event : sr_notif_event_t) : bool :=
  match event with SR_EV_VERIFY => true | _ => false end.

(** The run of a handler: the context it leaves, the system calls it
    made and the way it ended. *)
Record run := {
  run_ctx : plugin_ctx;
  run_trace : list syscall;
  run_outcome : outcome Z
}.

(** [SR_CHECK_RET] and [UCI_CHECK_RET] jump to the label when the code
    differs from [SR_ERR_OK], respectively [UCI_OK]. This is the handler
    over the pull as far as the merge goes; [Process.module_change_cb]
    below is the handler of a process that the pull can end. *)
Definition module_change_cb (k : uci_names) (RESTART_TIME_TO_WAIT : Z)
    (session : sr_session_ctx_t) (event : sr_notif_event_t) (ctx : plugin_ctx)
    (env : process_env) : run :=
  if is_verify event then
    {| run_ctx := ctx; run_trace := []; run_outcome := Returns SR_ERR_OK |}
  else
    let '(rc, ctx) := sysrepo_to_model session ctx in
    if negb (rc =? SR_ERR_OK) then
      {| run_ctx := ctx; run_trace := []; run_outcome := Returns rc |}
    else
      let '(rc, ctx) := model_to_uci k ctx in
      if negb (rc =? UCI_OK) then
        {| run_ctx := ctx; run_trace := []; run_outcome := Returns rc |}
      else
        (* Restart network to apply changes. *)
        let '(trace, ended) := restart_network RESTART_TIME_TO_WAIT env in
        {| run_ctx := ctx; run_trace := trace;
           run_outcome := match ended with
                          | Returns _ => Returns SR_ERR_OK
                          | Replaced => Replaced
                          | Exits status => Exits status
                          end |}.

(** ** Neighbor discovery *)

Module Neighbor.

(** A neighbor cache entry: the link-layer and the destination
    address, each possibly missing. An address is kept as the text
    [nl_addr2str] prints for it. *)
Record rtnl_neigh := {
  lladdr : option string;
  dst : option string
}.

(** A [char *] of the plugin's neighbor record: null, the address of
    the callback's local array [buf], or a string owned elsewhere. *)
Inductive char_ptr :=
  | null
  | stack_buf
  | owned (s : string).

Record neighbor_v4 := {
  link_layer_address : char_ptr;
  ip : char_ptr
}.

(** The memory the callback works on: the array
    [char buf[MAX_ADDR_LEN]] of its frame, which every invocation
    finds at the same place, and the record passed as [arg]. The array
    is dead once the callback has returned; [buf] is the text it held
    when it was last written, which is what a later read finds as long
    as nothing else has used that part of the stack. *)
Record memory := {
  buf : string;
  plugin_neigh : neighbor_v4
}.

(** The text behind a pointer. *)
Definition deref (m : memory) (p : char_ptr) : option string :=
  match p with
  | null => None
  | stack_buf => Some (buf m)
  | owned s => Some s
  end.

(** [nl_addr2str(addr, buf, size)] prints the address into [buf] and
    returns [buf]. *)
Definition nl_addr2str (addr : string) (m : memory) : char_ptr * memory :=
  (stack_buf, {| buf := addr; plugin_neigh := plugin_neigh m |}).

Definition neighbor_get_addr_cb (obj : rtnl_neigh) (m : memory) : memory :=
  match lladdr obj with
  | None => m
  | Some lladdr =>
      match dst obj with
      | None => m
      | Some ipaddr =>
          let '(p, m) := nl_addr2str lladdr m in
          let m := {| buf := buf m;
                      plugin_neigh := {| link_layer_address := p;
                                         ip := ip (plugin_neigh m) |} |} in
          let '(p, m) := nl_addr2str ipaddr m in
          {| buf := buf m;
             plugin_neigh := {| link_layer_address := link_layer_address (plugin_neigh m);
                                ip := p |} |}
      end
  end.

(** What netlink answers to [neighbor_get_addr]. *)
Record netlink_env := {
  socket_allocated : bool;
  connect_rc : Z;
  cache_rc : Z;
  neighbor_cache : list rtnl_neigh
}.

(** [nl_cache_foreach] calls the callback on every entry of the
    cache, in order, with the same [arg]. *)
Definition nl_cache_foreach (cache : list rtnl_neigh) (m : memory) : memory :=
  fold_left (fun m obj => neighbor_get_addr_cb obj m) cache m.

Definition neighbor_get_addr (env : netlink_env) (m : memory) : memory :=
  if negb (socket_allocated env) then m
  else if negb (connect_rc env =? SR_ERR_OK) then m
  else if negb (cache_rc env =? SR_ERR_OK) then m
  else nl_cache_foreach (neighbor_cache env) m.

(** The complete entries of a cache. *)
Definition complete (obj : rtnl_neigh) : bool :=
  match lladdr obj, dst obj with
  | Some _, Some _ => true
  | _, _ => false
  end.

End Neighbor.

(** ** External queries *)

(** The command lines of scripts.h. *)
Record scripts := {
  cmd_enabled : string;
  cmd_mac : string;
  cmd_speed : string;
  cmd_tx : string;
  cmd_tx_err : string;
  cmd_rx : string;
  cmd_rx_err : string;
  cmd_mtu : string
}.

(** What [popen] gives for a command line: no pipe, or a pipe with the
    line [fgets] reads first (none at end of file) and the status
    [pclose] returns. *)
Inductive pipe :=
  | popen_fails
  | pipe_of (first_line : option string) (status : Z).

Definition shell := string -> pipe.

Definition isspace (c : ascii) : bool :=
  let n := nat_of_ascii c in
  ((n =? 32) || ((9 <=? n) && (n <=? 13)))%nat.

Fixpoint skip_spaces (s : string) : string :=
  match s with
  | String c rest => if isspace c then skip_spaces rest else s
  | EmptyString => EmptyString
  end.

Fixpoint take_word (s : string) : string :=
  match s with
  | String c rest => if isspace c then EmptyString else String c (take_word rest)
  | EmptyString => EmptyString
  end.

(** [sscanf(buf, "%s", ptr)]: the first blank-delimited word, if any. *)
Definition sscanf_s (buf : string) : option string :=
  match take_word (skip_spaces buf) with
  | EmptyString => None
  | w => Some w
  end.

Definition digit_of (c : ascii) : option Z :=
  let n := Z.of_nat (nat_of_ascii c) in
  if (48 <=? n) && (n <=? 57) then Some (n - 48) else None.

Fixpoint scan_digits (s : string) (acc : option Z) : option Z :=
  match s with
  | String c rest =>
      match digit_of c with
      | Some d => scan_digits rest (Some (10 * default 0 acc + d))
      | None => acc
      end
  | EmptyString => acc
  end.

Definition ULONG_MAX : Z := 2 ^ 64 - 1.

(** [sscanf(buf, "%lu", ptr)]: blanks, an optional sign and decimal
    digits, converted as [strtoul] does. *)
Definition sscanf_lu (buf : string) : option Z :=
  let s := skip_spaces buf in
  let '(neg, s) := match s with
                   | String "-"%char rest => (true, rest)
                   | String "+"%char rest => (false, rest)
                   | _ => (false, s)
                   end in
  match scan_digits s None with
  | None => None
  | Some n =>
      if ULONG_MAX <? n then Some ULONG_MAX
      else Some (if neg then (2 ^ 64 - n) mod 2 ^ 64 else n)
  end.

Definition cmd_fmt : string := "%s %s".

(** [str_from_cmd], always called with the format ["%s"]: returns the
    code and the content of the caller's buffer [ptr] afterwards. *)
Definition str_from_cmd (sh : shell) (cmd cmd_arg : string) (ptr : string) : Z * string :=
  let cmd_buf := sprintf cmd_fmt [cmd; cmd_arg] in
  match sh cmd_buf with
  | popen_fails => (-1, ptr)
  | pipe_of None _ => (-1, ptr)
  | pipe_of (Some buf) status =>
      (status, match sscanf_s buf with Some w => w | None => ptr end)
  end.

(** [int_from_cmd], always called with the format ["%lu"]: returns the
    code and the unsigned long found at [ptr] afterwards. [cmd_buf] is
    built, but the pipe is opened on [cmd] alone. *)
Definition int_from_cmd (sh : shell) (cmd cmd_arg : string) (ptr : Z) : Z * Z :=
  match sh cmd with
  | popen_fails => (-1, ptr)
  | pipe_of None status => (status, ptr)
  | pipe_of (Some buf) status =>
      (status, match sscanf_lu buf with Some n => n | None => ptr end)
  end.

(** ** Operational data *)

Module Provider.

Definition xpath_fmt : string :=
  "/ietf-interfaces:interfaces-state/interface[name='%s']/%s".

(** [sr_xpath_node_name]: what follows the last slash of the path. *)
Fixpoint sr_xpath_node_name (xpath : string) : option string :=
  match xpath with
  | EmptyString => None
  | String c rest =>
      match sr_xpath_node_name rest with
      | Some n => Some n
      | None => if Ascii.eqb c "/" then Some rest else None
      end
  end.

Definition sr_xpath_node_name_eq (xpath node_str : string) : bool :=
  match sr_xpath_node_name xpath with
  | Some node_name => String.eqb node_name node_str
  | None => false
  end.

Definition zero_val : sr_val_t :=
  {| val_xpath := None; val_type := SR_UNKNOWN_T; val_data := data_zero |}.

(** [sr_new_values(cnt, &v)]: on success [v] points to [cnt] zeroed
    values, on failure it is left as it was. *)
Definition sr_new_values (alloc_rc : Z) (cnt : Z) (v : option (list sr_val_t))
    : Z * option (list sr_val_t) :=
  if alloc_rc =? SR_ERR_OK then (SR_ERR_OK, Some (replicate (Z.to_nat cnt) zero_val))
  else (alloc_rc, v).

Definition sr_val_set_xpath (val : sr_val_t) (xpath : string) : sr_val_t :=
  {| val_xpath := Some xpath; val_type := val_type val; val_data := val_data val |}.

Definition sr_val_set_str_data (val : sr_val_t) (type : sr_type_t) (s : string) : sr_val_t :=
  {| val_xpath := val_xpath val; val_type := type; val_data := data_string s |}.

(** [val->type = type; val->data.<unsigned member> = n]. *)
Definition set_uint_data (val : sr_val_t) (type : sr_type_t) (n : Z) : sr_val_t :=
  {| val_xpath := val_xpath val; val_type := type; val_data := data_uint n |}.

(** An assignment through [&v[i]]; outside the array it is a fault. *)
Definition update_at (i : nat) (f : sr_val_t -> sr_val_t) (v : list sr_val_t)
    : option (list sr_val_t) :=
  if decide (i < length v)%nat then Some (alter f i v) else None.

(** [%s] applied to a null pointer prints [(null)]. *)
Definition c_str (s : option string) : string := default "(null)" s.

(** The locals and out-parameters of [data_provider_cb].
    [values] is what the caller's [*values] holds. [values_cnt] tells
    whether the parameter of that name still points to the caller's
    counter, and [cnt] is the content of that counter. *)
Record dp_state := {
  xpath : string;
  v : option (list sr_val_t);
  i_v : nat;
  values : option (list sr_val_t);
  values_cnt : bool;
  cnt : Z
}.

(** What the callback gets from outside: the bytes found in its
    uninitialised local array [xpath], the shell, and the code of
    [sr_new_values]. *)
Record dp_env := {
  stack_xpath : string;
  sh : shell;
  alloc_rc : Z
}.

Inductive dp_step :=
  | dp_next (st : dp_state)
  | dp_stop (rc : Z) (st : dp_state)
  | dp_fault.

(** [sprintf(xpath, ...); sr_val_set_xpath(&v[i_v], xpath);] followed
    by the assignment of type and data, and [i_v++]. *)
Definition emit (path : string) (fill : sr_val_t -> sr_val_t) (st : dp_state)
    : option dp_state :=
  arr ← v st;
  arr' ← update_at (i_v st) (fun val => fill (sr_val_set_xpath val path)) arr;
  Some {| xpath := path; v := Some arr'; i_v := S (i_v st);
          values := values st; values_cnt := values_cnt st; cnt := cnt st |}.

(** The frame of the three answering branches: the caller's counter
    is set to [n] through [values_cnt], [sr_new_values] allocates [n]
    values (a failure code is returned at once), the branch [body]
    fills them and the caller's [values] is set to [v]. *)
Definition answer (env : dp_env) (n : Z) (body : dp_state -> option dp_state)
    (st : dp_state) : dp_step :=
  if negb (values_cnt st) then dp_fault
  else
    let '(rc, v') := sr_new_values (alloc_rc env) n (v st) in
    let st := {| xpath := xpath st; v := v'; i_v := i_v st;
                 values := values st; values_cnt := values_cnt st; cnt := n |} in
    if negb (rc =? SR_ERR_OK) then dp_stop rc st
    else
      match body st with
      | Some st => dp_next {| xpath := xpath st; v := v st; i_v := i_v st;
                              values := v st; values_cnt := values_cnt st;
                              cnt := cnt st |}
      | None => dp_fault
      end.

Definition interface_body (c : scripts) (env : dp_env) (interface_name if_name : string)
    (st : dp_state) : option dp_state :=
  st ← emit (sprintf xpath_fmt [if_name; "type"])
            (fun val => sr_val_set_str_data val SR_IDENTITYREF_T "ethernetCsmacd") st;
  (* oper-status *)
  let buf := "" in
  let buf := snd (str_from_cmd (sh env) (cmd_enabled c) interface_name buf) in
  st ← emit (sprintf xpath_fmt [if_name; "oper-status"])
            (fun val => sr_val_set_str_data val SR_ENUM_T buf) st;
  (* phys address *)
  let buf := snd (str_from_cmd (sh env) (cmd_mac c) interface_name buf) in
  st ← emit (sprintf xpath_fmt [if_name; "phys-address"])
            (fun val => sr_val_set_str_data val SR_STRING_T buf) st;
  (* speed *)
  let speed := snd (int_from_cmd (sh env) (cmd_speed c) interface_name 0) in
  emit (sprintf xpath_fmt [if_name; "speed"])
       (fun val => set_uint_data val SR_UINT64_T speed) st.

(** The two error counters are [uint32_t] objects filled through
    ["%lu"]: they keep the low 32 bits of the number read. The
    conversion stores eight bytes; where the other four land is not
    followed here. *)
Definition statistics_body (c : scripts) (env : dp_env) (interface_name if_name : string)
    (st : dp_state) : option dp_state :=
  let tx := snd (int_from_cmd (sh env) (cmd_tx c) interface_name 0) in
  st ← emit (sprintf xpath_fmt [if_name; "statistics/out-octets"])
            (fun val => set_uint_data val SR_UINT64_T tx) st;
  let tx_err := snd (int_from_cmd (sh env) (cmd_tx_err c) interface_name 0) mod 2 ^ 32 in
  st ← emit (sprintf xpath_fmt [if_name; "statistics/out-errors"])
            (fun val => set_uint_data val SR_UINT32_T tx_err) st;
  let rx := snd (int_from_cmd (sh env) (cmd_rx c) interface_name 0) in
  st ← emit (sprintf xpath_fmt [if_name; "statistics/in-octets"])
            (fun val => set_uint_data val SR_UINT64_T rx) st;
  let rx_err := snd (int_from_cmd (sh env) (cmd_rx_err c) interface_name 0) mod 2 ^ 32 in
  emit (sprintf xpath_fmt [if_name; "statistics/in-errors"])
       (fun val => set_uint_data val SR_UINT32_T rx_err) st.

Definition ipv4_body (c : scripts) (env : dp_env) (interface_name if_name : string)
    (st : dp_state) : option dp_state :=
  let mtu := snd (int_from_cmd (sh env) (cmd_mtu c) interface_name 0) mod 2 ^ 16 in
  emit (sprintf xpath_fmt [if_name; "statistics/ipv4/mtu"])
       (fun val => set_uint_data val SR_UINT16_T mtu) st.

(** One turn of the loop over the registry. The dispatch reads the
    local array [xpath]; the last branch is
    [*values = NULL; values_cnt = 0;]. *)
Definition dp_iface (c : scripts) (env : dp_env) (interface_name : string)
    (st : dp_state) (iface : if_interface) : dp_step :=
  let if_name := c_str (name iface) in
  if sr_xpath_node_name_eq (xpath st) "interface" then
    answer env 4 (interface_body c env interface_name if_name) st
  else if sr_xpath_node_name_eq (xpath st) "statistics" then
    answer env 4 (statistics_body c env interface_name if_name) st
  else if sr_xpath_node_name_eq (xpath st) "ipv4" then
    answer env 1 (ipv4_body c env interface_name if_name) st
  else
    dp_next {| xpath := xpath st; v := v st; i_v := i_v st;
               values := None; values_cnt := false; cnt := cnt st |}.

Fixpoint dp_loop (c : scripts) (env : dp_env) (interface_name : string)
    (l : list if_interface) (st : dp_state) : dp_step :=
  match l with
  | [] => dp_next st
  | iface :: l' =>
      match dp_iface c env interface_name st iface with
      | dp_next st' => dp_loop c env interface_name l' st'
      | r => r
      end
  end.

(** How a call of [data_provider_cb] ends: it returns [rc] and leaves
    [*values] and the caller's counter as shown, or it faults. *)
Inductive dp_result :=
  | dp_returns (rc : Z) (values : option (list sr_val_t)) (values_cnt : Z)
  | dp_crashes.

(** [cb_xpath] is the path of the query; [values0] and [cnt0] are what
    the caller's output variables hold at the call. *)
Definition data_provider_cb (c : scripts) (cb_xpath : string)
    (values0 : option (list sr_val_t)) (cnt0 : Z) (ctx : plugin_ctx) (env : dp_env)
    : dp_result :=
  let interface_name := key ctx in
  let st := {| xpath := stack_xpath env; v := None; i_v := 0%nat;
               values := values0; values_cnt := true; cnt := cnt0 |} in
  match dp_loop c env interface_name (interfaces ctx) st with
  | dp_next st => dp_returns SR_ERR_OK (values st) (cnt st)
  | dp_stop rc st => dp_returns rc (values st) (cnt st)
  | dp_fault => dp_crashes
  end.

End Provider.

(** ** Resolving the interface type *)

(** One section of a UCI package: its name and its string options. *)
Record uci_section := {
  section_name : string;
  section_options : gmap string string
}.

(** What [uci_load(uctx, "network", &up)] answers: its code and the
    sections of the package in file order. *)
Record uci_package := {
  load_rc : Z;
  sections : list uci_section
}.

(** The loop [uci_foreach_element(&up->sections, e)] of
    [find_interface_type]: the name of the first section whose option
    [ifname] equals the interface name. [strcmp] on a null interface
    name is a fault. *)
Inductive scan_result :=
  | scan_end
  | scan_found (section : string)
  | scan_fault.

Fixpoint scan_sections (ifname : option string) (l : list uci_section) : scan_result :=
  match l with
  | [] => scan_end
  | s :: l' =>
      match section_options s !! "ifname" with
      | Some v =>
          match ifname with
          | None => scan_fault
          | Some n => if String.eqb n v then scan_found (section_name s)
                      else scan_sections ifname l'
          end
      | None => scan_sections ifname l'
      end
  end.

(** [find_interface_type]: returns what [*if_type] holds afterwards,
    or [None] for a fault. When [uci_load] fails the source goes on to
    test the local [up], which nothing has set; the first branch is the
    run in which that pointer is null and [uci_unload] is not called. *)
Definition find_interface_type (up : uci_package) (ifname : option string)
    (if_type : option string) : option (option string) :=
  if negb (load_rc up =? UCI_OK) then Some if_type
  else
    match scan_sections ifname (sections up) with
    | scan_end => Some if_type
    | scan_found section => Some (Some section)
    | scan_fault => None
    end.

(** ** Initial configuration from the system *)

(** A link of the kernel's link cache, as far as the plugin reads it. *)
Record rtnl_link := {
  link_ip4 : string;
  link_mtu : Z
}.

(** [rtnl_link_get_by_name] on the cache of a fresh function context. *)
Definition link_cache := option string -> option rtnl_link.

(** Modelled from the spec: [get_ip4], defined outside network.c, is
    the text of the IPv4 address of a link. *)
Definition get_ip4 (link : rtnl_link) : string := link_ip4 link.

(** Modelled from the spec: [get_mtu], defined outside network.c, is
    the MTU of a link. *)
Definition get_mtu (link : rtnl_link) : Z := link_mtu link.

(** [init_config_ipv4]: the code and the attribute set afterwards; the
    MTU is stored in a 16-bit field. *)
Definition init_config_ipv4 (cache : link_cache) (ipv4 : ip_v4)
    (interface_name : option string) : Z * ip_v4 :=
  match cache interface_name with
  | None => (-1, ipv4)
  | Some link =>
      (0, {| enabled := enabled ipv4; forwarding := forwarding ipv4;
             origin := origin ipv4;
             mtu := get_mtu link mod 2 ^ 16;
             address := {| ip := get_ip4 link; subnet := subnet (address ipv4) |} |})
  end.

(** The body of the loop of [init_config] for one record; the code of
    [init_config_ipv4] is dropped. *)
Definition init_config_iface (cache : link_cache) (up : uci_package) (iface : if_interface)
    : option if_interface :=
  let p := snd (init_config_ipv4 cache (ipv4 (proto iface)) (name iface)) in
  t ← find_interface_type up (name iface) (type iface);
  Some {| name := name iface; type := t; description := description iface;
          proto := {| ipv4 := p |} |}.

(** [init_config]: [None] for a fault, otherwise the code [0] and the
    context afterwards. *)
Definition init_config (cache : link_cache) (up : uci_package) (ctx : plugin_ctx)
    : option (Z * plugin_ctx) :=
  l ← mapM (init_config_iface cache up) (interfaces ctx);
  Some (0, with_interfaces l ctx).

(** ** Publishing the model to the datastore *)

(** The write side of a session: the items it holds, the paths whose
    writes it refuses, the code [sr_commit] answers and the number of
    calls of [sr_commit] so far. *)
Record sr_datastore := {
  ds_items : gmap string sr_val_t;
  ds_refused : string -> bool;
  ds_commit_rc : Z;
  ds_commits : nat
}.

(** [sr_set_item(sess, xpath, &val, SR_EDIT_DEFAULT)]: the item at
    [xpath] takes the type and data of [val]. *)
Definition sr_set_item (ds : sr_datastore) (xpath : string) (val : sr_val_t)
    : Z * sr_datastore :=
  if ds_refused ds xpath then (SR_ERR_INTERNAL, ds)
  else (SR_ERR_OK,
        {| ds_items := <[xpath := {| val_xpath := Some xpath; val_type := val_type val;
                                     val_data := val_data val |}]> (ds_items ds);
           ds_refused := ds_refused ds; ds_commit_rc := ds_commit_rc ds;
           ds_commits := ds_commits ds |}).

Definition sr_commit (ds : sr_datastore) : Z * sr_datastore :=
  (ds_commit_rc ds,
   {| ds_items := ds_items ds; ds_refused := ds_refused ds;
      ds_commit_rc := ds_commit_rc ds; ds_commits := S (ds_commits ds) |}).

(** [val.type = type; val.data.<member> = d]. *)
Definition set_val (val : sr_val_t) (type : sr_type_t) (d : sr_data_t) : sr_val_t :=
  {| val_xpath := val_xpath val; val_type := type; val_data := d |}.

(** The body of the loop of [sysrepo_commit_network] for one record:
    the local [val] goes from one record to the next, and the codes of
    the writes and of the commit are only logged. *)
Definition sysrepo_commit_network_iface (st : sr_datastore * sr_val_t)
    (iface : if_interface) : sr_datastore * sr_val_t :=
  let '(ds, val) := st in
  let n := Provider.c_str (name iface) in
  let p := ipv4 (proto iface) in
  let xpath := sprintf xpath_fmt [n; "type"] in
  let val := set_val val SR_IDENTITYREF_T (data_string "iana-if-type:ethernetCsmacd") in
  let val := Provider.sr_val_set_xpath val xpath in
  let ds := snd (sr_set_item ds xpath val) in
  (* Set forwarding. *)
  let val := set_val val SR_BOOL_T (data_bool (forwarding p)) in
  let ds := snd (sr_set_item ds (sprintf xpath_fmt_ipv4 [n; "forwarding"]) val) in
  (* set MTU. *)
  let val := set_val val SR_UINT16_T (data_uint (mtu p)) in
  let ds := snd (sr_set_item ds (sprintf xpath_fmt_ipv4 [n; "mtu"]) val) in
  (* set ENABLED. *)
  let val := set_val val SR_BOOL_T (data_bool (enabled p)) in
  let ds := snd (sr_set_item ds (sprintf xpath_fmt_ipv4 [n; "enabled"]) val) in
  (* Commit values set. *)
  (snd (sr_commit ds), val).

Definition sysrepo_commit_network (ds : sr_datastore) (ctx : plugin_ctx)
    : Z * sr_datastore :=
  (SR_ERR_OK,
   fst (fold_left sysrepo_commit_network_iface (interfaces ctx) (ds, Provider.zero_val))).


(** ** Plugin initialisation *)

(** What a private pointer handed to sysrepo designates: the value
    found in the caller's [*private_ctx] at the call, or the context
    allocated by the call. *)
Inductive void_ptr := caller_ptr | new_ctx.

Inductive callback := cb_data_provider | cb_module_change.

Record subscription := {
  sub_path : string;
  sub_callback : callback;
  sub_private : void_ptr
}.

(** What the call gets from outside. *)
Record init_env := {
  kernel_answer : list nl_msg;
  uci_alloc_context : option uci_context;
  kernel_links : link_cache;
  network_package : uci_package;
  dp_subscribe_rc : Z;
  change_subscribe_rc : Z
}.

(** What the call leaves: its code, the global list [interfaces], the
    datastore, the caller's [*private_ctx], the subscriptions made, the
    fields of the allocated context (once its UCI context exists),
    whether that context was freed and whether [sr_unsubscribe] ran. *)
Record init_result := {
  init_rc : Z;
  init_interfaces : list if_interface;
  init_datastore : sr_datastore;
  init_private_ctx : void_ptr;
  init_subscriptions : list subscription;
  init_ctx : option plugin_ctx;
  init_ctx_freed : bool;
  init_unsubscribed : bool
}.

(** [sr_plugin_init_cb]; [None] is a fault inside [init_config]. The
    context points to the global list, which [ls_interfaces] fills
    before the UCI context is allocated. *)
Definition sr_plugin_init_cb (origin_zero : ip_origin) (env : init_env)
    (global_interfaces : list if_interface) (session : sr_datastore)
    : option init_result :=
  let rc := SR_ERR_OK in
  let global_interfaces :=
    nl_recvmsgs_default (ls_interfaces_cb origin_zero) (kernel_answer env)
      global_interfaces in
  match uci_alloc_context env with
  | None =>
      Some {| init_rc := rc; init_interfaces := global_interfaces; init_datastore := session;
              init_private_ctx := caller_ptr; init_subscriptions := [];
              init_ctx := None; init_ctx_freed := true; init_unsubscribed := true |}
  | Some uctx =>
      let ctx := {| key := "bla"; interfaces := global_interfaces; uctx := uctx |} in
      (* read initial config from system *)
      '(_, ctx) ← init_config (kernel_links env) (network_package env) ctx;
      (* Commit model to datastore *)
      let '(_, session) := sysrepo_commit_network session ctx in
      (* operational data *)
      let rc := dp_subscribe_rc env in
      if negb (rc =? SR_ERR_OK) then
        Some {| init_rc := rc; init_interfaces := interfaces ctx;
                init_datastore := session;
                init_private_ctx := caller_ptr; init_subscriptions := [];
                init_ctx := Some ctx; init_ctx_freed := true; init_unsubscribed := true |}
      else
        let subscriptions :=
          [ {| sub_path := "/ietf-interfaces:interfaces-state";
               sub_callback := cb_data_provider; sub_private := caller_ptr |} ] in
        let private_ctx := new_ctx in
        let rc := change_subscribe_rc env in
        if negb (rc =? SR_ERR_OK) then
          Some {| init_rc := rc; init_interfaces := interfaces ctx;
                  init_datastore := session;
                  init_private_ctx := private_ctx; init_subscriptions := subscriptions;
                  init_ctx := Some ctx; init_ctx_freed := true; init_unsubscribed := true |}
        else
          Some {| init_rc := SR_ERR_OK; init_interfaces := interfaces ctx;
                  init_datastore := session;
                  init_private_ctx := private_ctx;
                  init_subscriptions :=
                    subscriptions ++
                    [ {| sub_path := "ietf-interfaces";
                         sub_callback := cb_module_change; sub_private := private_ctx |} ];
                  init_ctx := Some ctx; init_ctx_freed := false;
                  init_unsubscribed := false |}
  end.

(** ** Vocabulary of the statements *)

(** The attributes merged by the pull sequence, the value each one
    holds in a record, the path queried for it and the value a datastore
    answer carries for it. *)
Inductive attribute :=
  | attr_enabled | attr_forwarding | attr_origin | attr_mtu
  | attr_address_ip | attr_prefix_length.

Inductive attr_value :=
  | value_bool (b : bool)
  | value_origin (o : ip_origin)
  | value_uint (n : Z)
  | value_text (s : string).

Definition attribute_of (a : attribute) (iface : if_interface) : attr_value :=
  let p := ipv4 (proto iface) in
  match a with
  | attr_enabled => value_bool (enabled p)
  | attr_forwarding => value_bool (forwarding p)
  | attr_origin => value_origin (origin p)
  | attr_mtu => value_uint (mtu p)
  | attr_address_ip => value_text (ip (address p))
  | attr_prefix_length => value_uint (prefix_length (subnet (address p)))
  end.

Definition attribute_query (a : attribute) (n : string) (iface : if_interface) : string :=
  match a with
  | attr_enabled => sprintf xpath_fmt_ipv4 [n; "enabled"]
  | attr_forwarding => sprintf xpath_fmt_ipv4 [n; "forwarding"]
  | attr_origin => sprintf xpath_fmt_ipv4 [n; "origin"]
  | attr_mtu => sprintf xpath_fmt_ipv4 [n; "mtu"]
  | attr_address_ip => xpath_ip n (ip (address (ipv4 (proto iface))))
  | attr_prefix_length => xpath_prefix_length n
  end.

Definition attribute_from (a : attribute) (val : sr_val_t) : attr_value :=
  let d := val_data val in
  match a with
  | attr_enabled => value_bool (bool_val d)
  | attr_forwarding => value_bool (bool_val d)
  | attr_origin => value_origin (string_to_origin (enum_val d))
  | attr_mtu => value_uint (uint16_val d)
  | attr_address_ip => value_text (string_val d)
  | attr_prefix_length => value_uint (uint8_val d)
  end.

(** The option names the push sequence writes. *)
Definition written_options (k : uci_names) : list string :=
  [opt_operstate k; opt_origin k; opt_mtu k; opt_ip4 k].

(** The number of [fork] calls in a trace: one per call of
    [restart_network]. *)
Definition forks (t : list syscall) : nat :=
  length (List.filter (fun c => match c with sys_fork => true | _ => false end) t).

(** A handler hands a failure code to its caller. *)
Definition returns_failure (o : outcome Z) : bool :=
  match o with
  | Returns rc => negb (rc =? SR_ERR_OK)
  | _ => false
  end.

(** The local array of the provider holds a path one of the three
    answering branches is taken for. *)
Definition dispatches (xpath : string) : bool :=
  Provider.sr_xpath_node_name_eq xpath "interface"
  || Provider.sr_xpath_node_name_eq xpath "statistics"
  || Provider.sr_xpath_node_name_eq xpath "ipv4".

(** The provider's state after the last branch of its loop. *)
Definition dropped (st : Provider.dp_state) : Provider.dp_state :=
  {| Provider.xpath := Provider.xpath st; Provider.v := Provider.v st;
     Provider.i_v := Provider.i_v st; Provider.values := None;
     Provider.values_cnt := false; Provider.cnt := Provider.cnt st |}.

(** The number an external counter query leaves in a variable that
    held [0]. *)
Definition counter (sh : shell) (cmd cmd_arg : string) : Z :=
  snd (int_from_cmd sh cmd cmd_arg 0).

(** ** Sample inputs *)

Definition sample_names : uci_names :=
  {| opt_operstate := "enabled"; opt_origin := "proto"; opt_mtu := "mtu";
     opt_ip4 := "ipaddr";
     operstate_string := fun b : bool => if b then "1" else "0" |}.

Definition sample_scripts : scripts :=
  {| cmd_enabled := "operstate"; cmd_mac := "mac"; cmd_speed := "speed";
     cmd_tx := "tx_bytes"; cmd_tx_err := "tx_errors";
     cmd_rx := "rx_bytes"; cmd_rx_err := "rx_errors"; cmd_mtu := "mtu" |}.

Definition sample_interface (n : string) (t : option string) (mtu : Z) : if_interface :=
  {| name := Some n; type := t; description := "";
     proto := {| ipv4 := {| enabled := false; forwarding := false; origin := ORIGIN_STATIC;
                            mtu := mtu;
                            address := {| ip := "192.168.1.1";
                                          subnet := {| prefix_length := 24 |} |} |} |} |}.

Definition writable_uci : uci_context :=
  {| uci_options := {[ ("lan", "ifname") := "eth0" ]}; uci_refused := fun _ _ => false |}.

Definition refusing_uci : uci_context :=
  {| uci_options := {[ ("lan", "ifname") := "eth0" ]}; uci_refused := fun _ _ => true |}.

Definition sample_ctx (l : list if_interface) (u : uci_context) : plugin_ctx :=
  {| key := "bla"; interfaces := l; uctx := u |}.

Definition no_val : sr_val_t :=
  {| val_xpath := None; val_type := SR_UNKNOWN_T; val_data := data_zero |}.

(** A datastore whose every query fails. *)
Definition session_broken : sr_session_ctx_t :=
  fun _ => (SR_ERR_INTERNAL, no_val).

Definition ifname_attr (n : string) : rtattr :=
  {| rta_type := IFLA_IFNAME; rta_data := n |}.

Definition link_msg (index : Z) (n : string) : nl_msg :=
  {| ifi_index := index;
     ifi_attrs := [ {| rta_type := 4; rta_data := "mtu" |}; ifname_attr n ] |}.

Definition answer_lo_eth0_eth0 : list nl_msg :=
  [link_msg 1 "lo"; link_msg 2 "eth0"; link_msg 2 "eth0"].

Definition in_parent : process_env := {| fork_result := 4242; execv_succeeds := true |}.
Definition in_child : process_env := {| fork_result := 0; execv_succeeds := true |}.

(** Every counter script answers; [tx = 100], [tx_err = 0], [rx = 50],
    [rx_err = 2]. *)
Definition counters_shell : shell :=
  fun cmd =>
    if String.eqb cmd "tx_bytes" then pipe_of (Some "100") 0
    else if String.eqb cmd "tx_errors" then pipe_of (Some "0") 0
    else if String.eqb cmd "rx_bytes" then pipe_of (Some "50") 0
    else if String.eqb cmd "rx_errors" then pipe_of (Some "2") 0
    else popen_fails.

(** The same, with the rx query failing. *)
Definition counters_shell_rx_down : shell :=
  fun cmd => if String.eqb cmd "rx_bytes" then popen_fails else counters_shell cmd.

Definition query_statistics : string :=
  "/ietf-interfaces:interfaces-state/interface[name='eth0']/statistics".

Definition query_ipv6 : string :=
  "/ietf-interfaces:interfaces-state/interface[name='eth0']/ipv6".

Definition one_neighbor : list Neighbor.rtnl_neigh :=
  [ {| Neighbor.lladdr := Some "00:11:22:33:44:55"; Neighbor.dst := Some "192.168.1.7" |} ].

Definition netlink_up (cache : list Neighbor.rtnl_neigh) : Neighbor.netlink_env :=
  {| Neighbor.socket_allocated := true; Neighbor.connect_rc := 0;
     Neighbor.cache_rc := 0; Neighbor.neighbor_cache := cache |}.

Definition empty_memory : Neighbor.memory :=
  {| Neighbor.buf := "";
     Neighbor.plugin_neigh := {| Neighbor.link_layer_address := Neighbor.null;
                                 Neighbor.ip := Neighbor.null |} |}.

(** ** Vocabulary of the further properties *)

(** The options the push writes for a record, each with its value. *)
Definition pushed_options (k : uci_names) (iface : if_interface) : list (string * string) :=
  let p := ipv4 (proto iface) in
  [ (opt_operstate k, operstate_string k (enabled p));
    (opt_origin k, origin_to_string (origin p));
    (opt_mtu k, pretty (mtu p));
    (opt_ip4 k, ip (address p)) ].

(** The paths the publication writes for a record. *)
Definition published_paths (iface : if_interface) : list string :=
  let n := Provider.c_str (name iface) in
  [ sprintf xpath_fmt [n; "type"];
    sprintf xpath_fmt_ipv4 [n; "forwarding"];
    sprintf xpath_fmt_ipv4 [n; "mtu"];
    sprintf xpath_fmt_ipv4 [n; "enabled"] ].

(** The items the publication writes for a record: the path and the
    value the datastore holds there afterwards. *)
Definition published_items (iface : if_interface) : list (string * sr_val_t) :=
  let n := Provider.c_str (name iface) in
  let p := ipv4 (proto iface) in
  let item xpath type d :=
    (xpath, {| val_xpath := Some xpath; val_type := type; val_data := d |}) in
  [ item (sprintf xpath_fmt [n; "type"]) SR_IDENTITYREF_T
      (data_string "iana-if-type:ethernetCsmacd");
    item (sprintf xpath_fmt_ipv4 [n; "forwarding"]) SR_BOOL_T (data_bool (forwarding p));
    item (sprintf xpath_fmt_ipv4 [n; "mtu"]) SR_UINT16_T (data_uint (mtu p));
    item (sprintf xpath_fmt_ipv4 [n; "enabled"]) SR_BOOL_T (data_bool (enabled p)) ].

(** The last character of a string. *)
Fixpoint last_char (s : string) : option ascii :=
  match s with
  | EmptyString => None
  | String c rest => match last_char rest with
                     | Some c' => Some c'
                     | None => Some c
                     end
  end.

(** The paths of the interface subtree: a fixed head, the name, and a
    tail that names the node. *)
Definition interface_path (n tail : string) : string :=
  "/ietf-interfaces:interfaces/interface[name='" +:+ (n +:+ tail).

(** What [init_config] makes of one record: the identity and the
    attributes it does not read from the system are kept, the type is
    what [find_interface_type] leaves, and address and MTU are those of
    the kernel link when there is one. *)
Definition initialised (cache : link_cache) (up : uci_package)
    (iface iface' : if_interface) : Prop :=
  let p := ipv4 (proto iface) in
  let p' := ipv4 (proto iface') in
  name iface' = name iface
  /\ description iface' = description iface
  /\ enabled p' = enabled p
  /\ forwarding p' = forwarding p
  /\ origin p' = origin p
  /\ subnet (address p') = subnet (address p)
  /\ find_interface_type up (name iface) (type iface) = Some (type iface')
  /\ match cache (name iface) with
     | None => ip (address p') = ip (address p) /\ mtu p' = mtu p
     | Some link => ip (address p') = link_ip4 link /\ mtu p' = link_mtu link mod 2 ^ 16
     end.

(** ** Further sample inputs *)

(** The status, speed and MTU scripts answer; the MAC script cannot be
    run. *)
Definition status_shell : shell :=
  fun cmd =>
    if String.eqb cmd "operstate bla" then pipe_of (Some "up") 0
    else if String.eqb cmd "speed" then pipe_of (Some "1000") 0
    else if String.eqb cmd "mtu" then pipe_of (Some "1500") 0
    else popen_fails.

Definition query_interface : string :=
  "/ietf-interfaces:interfaces-state/interface".

Definition query_state_ipv4 : string :=
  "/ietf-interfaces:interfaces-state/interface[name='eth0']/ipv4".

Definition section (n : string) (ifname : option string) : uci_section :=
  {| section_name := n;
     section_options := match ifname with
                        | Some v => {[ "ifname" := v; "proto" := "static" ]}
                        | None => {[ "proto" := "static" ]}
                        end |}.

Definition network_file : uci_package :=
  {| load_rc := UCI_OK;
     sections := [section "loopback" (Some "lo"); section "globals" None;
                  section "lan" (Some "eth0"); section "lan2" (Some "eth0")] |}.

Definition one_link : link_cache :=
  fun n => if decide (n = Some "eth0")
           then Some {| link_ip4 := "10.0.0.5"; link_mtu := 9000 |}
           else None.

Definition empty_datastore : sr_datastore :=
  {| ds_items := ∅; ds_refused := fun _ => false; ds_commit_rc := SR_ERR_OK;
     ds_commits := 0 |}.

Definition sample_init_env (u : option uci_context) (dp_rc change_rc : Z) : init_env :=
  {| kernel_answer := [link_msg 1 "lo"; link_msg 2 "eth0"];
     uci_alloc_context := u;
     kernel_links := one_link;
     network_package := network_file;
     dp_subscribe_rc := dp_rc;
     change_subscribe_rc := change_rc |}.

(** ** The pull and the handler in the running process *)

(** [sysrepo_to_model] above is the merge the pull computes. Two things
    in the source decide whether the process gets to the end of it. The
    local [val] is declared once, before the loops, and is freed at the
    end of every turn without being reset, so a turn that gets no value
    frees again what the turn before freed. And the paths of the two
    address queries are printed by [sprintf(xpath, xpath, ...)], with
    the destination as its own format, which the C standard leaves
    undefined. The definitions of this module follow the source through
    both. *)
Module Process.

(** An argument of a variadic call. *)
Inductive vararg :=
  | va_str (s : string)
  | va_int (n : Z).

(** What the C library makes of [sprintf] when the destination is the
    format: the text it leaves in the array, from the text the array
    held and the arguments, or [None] when the call ends the process. *)
Definition overlapping_sprintf := string -> list vararg -> option string.

(** The local [val]: null, pointing to a value the datastore returned,
    or still pointing to a value that has been freed. *)
Inductive val_ptr := val_null | val_live | val_freed.

(** [sr_free_val] on a pointer that is not null: the value is
    released and the pointer dangles; releasing it a second time ends
    the process. *)
Definition sr_free_val (val : val_ptr) : option val_ptr :=
  match val with
  | val_live => Some val_freed
  | _ => None
  end.

(** The text of the local array [xpath] at each of the two address
    queries. *)
Definition xpath_ip (libc : overlapping_sprintf) (name ip : string) : option string :=
  libc (sprintf xpath_fmt_ipv4 [name; "address[ip='%s']/ip"]) [va_str name; va_str ip].

Definition xpath_prefix_length (libc : overlapping_sprintf) (name : string)
    (prefix_length : Z) : option string :=
  libc (sprintf xpath_fmt_ipv4 [name; "address[ip='%s']/prefix_length"])
       [va_str name; va_int prefix_length].

(** How one turn of the second loop ends: the loop goes on, with [val]
    and the record as the turn leaves them, or the process is ended in
    the turn. *)
Inductive turn :=
  | turn_done (val : val_ptr) (iface : if_interface)
  | turn_dies (iface : if_interface).

(** The body of the second loop of [sysrepo_to_model] for one record.
    A query that succeeds makes [val] point to a new value; a query
    that fails leaves [val] as it was. *)
Definition sysrepo_to_model_iface (libc : overlapping_sprintf) (sess : sr_session_ctx_t)
    (val : val_ptr) (iface : if_interface) : turn :=
  match name iface with
  | None => turn_done val iface
  | Some n =>
      (* enabled *)
      let '(rc, item) := sr_get_item sess (sprintf xpath_fmt_ipv4 [n; "enabled"]) in
      let val := if rc =? SR_ERR_OK then val_live else val in
      let iface := if rc =? SR_ERR_OK then set_enabled (bool_val (val_data item)) iface
                   else iface in
      (* forwarding *)
      let '(rc, item) := sr_get_item sess (sprintf xpath_fmt_ipv4 [n; "forwarding"]) in
      let val := if rc =? SR_ERR_OK then val_live else val in
      let iface := if rc =? SR_ERR_OK then set_forwarding (bool_val (val_data item)) iface
                   else iface in
      (* origin *)
      let '(rc, item) := sr_get_item sess (sprintf xpath_fmt_ipv4 [n; "origin"]) in
      let val := if rc =? SR_ERR_OK then val_live else val in
      let iface := if rc =? SR_ERR_OK
                   then set_origin_field (string_to_origin (enum_val (val_data item))) iface
                   else iface in
      (* MTU *)
      let '(rc, item) := sr_get_item sess (sprintf xpath_fmt_ipv4 [n; "mtu"]) in
      let val := if rc =? SR_ERR_OK then val_live else val in
      let iface := if rc =? SR_ERR_OK then set_mtu_field (uint16_val (val_data item)) iface
                   else iface in
      (* name: queried, the answer is only logged *)
      let '(rc, item) := sr_get_item sess (sprintf xpath_fmt [n; "name"]) in
      let val := if rc =? SR_ERR_OK then val_live else val in
      (* ip *)
      match xpath_ip libc n (ip (address (ipv4 (proto iface)))) with
      | None => turn_dies iface
      | Some xpath =>
          let '(rc, item) := sr_get_item sess xpath in
          let val := if rc =? SR_ERR_OK then val_live else val in
          let iface := if rc =? SR_ERR_OK
                       then set_address_ip (string_val (val_data item)) iface
                       else iface in
          (* prefix length *)
          match xpath_prefix_length libc n
                  (prefix_length (subnet (address (ipv4 (proto iface))))) with
          | None => turn_dies iface
          | Some xpath =>
              let '(rc, item) := sr_get_item sess xpath in
              let val := if rc =? SR_ERR_OK then val_live else val in
              let iface := if rc =? SR_ERR_OK
                           then set_prefix_length (uint8_val (val_data item)) iface
                           else iface in
              match val with
              | val_null => turn_done val_null iface
              | _ => match sr_free_val val with
                     | Some val => turn_done val iface
                     | None => turn_dies iface
                     end
              end
          end
      end
  end.

(** The second loop: whether it got to its end, and the records as it
    leaves them. *)
Fixpoint sysrepo_to_model_loop (libc : overlapping_sprintf) (sess : sr_session_ctx_t)
    (val : val_ptr) (l : list if_interface) : bool * list if_interface :=
  match l with
  | [] => (true, [])
  | iface :: l' =>
      match sysrepo_to_model_iface libc sess val iface with
      | turn_done val iface =>
          let '(finished, l'') := sysrepo_to_model_loop libc sess val l' in
          (finished, iface :: l'')
      | turn_dies iface => (false, iface :: l')
      end
  end.

(** [sysrepo_to_model]: the code returned, [None] when the process was
    ended before the return, and the context as the call leaves it. *)
Definition sysrepo_to_model (libc : overlapping_sprintf) (sess : sr_session_ctx_t)
    (ctx : plugin_ctx) : option Z * plugin_ctx :=
  let '(finished, l) := sysrepo_to_model_loop libc sess val_null (interfaces ctx) in
  (if finished then Some SR_ERR_OK else None, with_interfaces l ctx).

(** The run of the handler: the context it leaves, the system calls it
    made and the way it ended, [None] when the process was ended in the
    pull. *)
Record run := {
  run_ctx : plugin_ctx;
  run_trace : list syscall;
  run_end : option (outcome Z)
}.

Definition module_change_cb (k : uci_names) (RESTART_TIME_TO_WAIT : Z)
    (libc : overlapping_sprintf) (session : sr_session_ctx_t) (event : sr_notif_event_t)
    (ctx : plugin_ctx) (env : process_env) : run :=
  if is_verify event then
    {| run_ctx := ctx; run_trace := []; run_end := Some (Returns SR_ERR_OK) |}
  else
    match sysrepo_to_model libc session ctx with
    | (None, ctx) => {| run_ctx := ctx; run_trace := []; run_end := None |}
    | (Some rc, ctx) =>
        if negb (rc =? SR_ERR_OK) then
          {| run_ctx := ctx; run_trace := []; run_end := Some (Returns rc) |}
        else
          let '(rc, ctx) := model_to_uci k ctx in
          if negb (rc =? UCI_OK) then
            {| run_ctx := ctx; run_trace := []; run_end := Some (Returns rc) |}
          else
            (* Restart network to apply changes. *)
            let '(trace, ended) := restart_network RESTART_TIME_TO_WAIT env in
            {| run_ctx := ctx; run_trace := trace;
               run_end := Some match ended with
                               | Returns _ => Returns SR_ERR_OK
                               | Replaced => Replaced
                               | Exits status => Exits status
                               end |}
    end.

(** The path queried for an attribute of a record, [None] when the
    process is ended while the path is printed. *)
Definition attribute_query (libc : overlapping_sprintf) (a : attribute) (n : string)
    (iface : if_interface) : option string :=
  match a with
  | attr_enabled => Some (sprintf xpath_fmt_ipv4 [n; "enabled"])
  | attr_forwarding => Some (sprintf xpath_fmt_ipv4 [n; "forwarding"])
  | attr_origin => Some (sprintf xpath_fmt_ipv4 [n; "origin"])
  | attr_mtu => Some (sprintf xpath_fmt_ipv4 [n; "mtu"])
  | attr_address_ip => xpath_ip libc n (ip (address (ipv4 (proto iface))))
  | attr_prefix_length =>
      xpath_prefix_length libc n (prefix_length (subnet (address (ipv4 (proto iface)))))
  end.

(** What the pull leaves of an attribute: the value of the datastore's
    answer when the query for it succeeds, the value the record had when
    the query fails. *)
Definition merged (libc : overlapping_sprintf) (sess : sr_session_ctx_t) (a : attribute)
    (n : string) (iface iface' : if_interface) : Prop :=
  exists xpath,
    attribute_query libc a n iface = Some xpath
    /\ (fst (sr_get_item sess xpath) = SR_ERR_OK ->
        attribute_of a iface' = attribute_from a (snd (sr_get_item sess xpath)))
    /\ (fst (sr_get_item sess xpath) <> SR_ERR_OK ->
        attribute_of a iface' = attribute_of a iface).

(** A C library in which the second [sprintf] comes out as the
    substitution of the name when the name has the two characters of
    the conversion it replaces, so that no character of the array
    changes place; any other call ends the process. *)
Definition exact_fit : overlapping_sprintf :=
  fun fmt args =>
    match args with
    | va_str n :: _ => if (String.length n =? 2)%nat then Some (sprintf fmt [n]) else None
    | _ => None
    end.

End Process.

(** A datastore holding [enabled = true] for lo and nothing else. *)
Definition session_lo_enabled : sr_session_ctx_t :=
  fun xpath =>
    if String.eqb xpath
         "/ietf-interfaces:interfaces/interface[name='lo']/ietf-ip:ipv4/enabled"
    then (SR_ERR_OK, {| val_xpath := Some xpath; val_type := SR_BOOL_T;
                        val_data := data_bool true |})
    else (SR_ERR_NOT_FOUND, no_val).

(** A datastore holding [mtu = 9000] for lo and nothing else. *)
Definition session_lo_mtu : sr_session_ctx_t :=
  fun xpath =>
    if String.eqb xpath
         "/ietf-interfaces:interfaces/interface[name='lo']/ietf-ip:ipv4/mtu"
    then (SR_ERR_OK, {| val_xpath := Some xpath; val_type := SR_UINT16_T;
                        val_data := data_uint 9000 |})
    else (SR_ERR_NOT_FOUND, no_val).

(** The status and MTU scripts answer; the MAC script runs and prints
    nothing. *)
Definition silent_mac_shell : shell :=
  fun cmd =>
    if String.eqb cmd "operstate bla" then pipe_of (Some "up") 0
    else if String.eqb cmd "mac bla" then pipe_of None 127
    else if String.eqb cmd "speed" then pipe_of (Some "1000") 0
    else popen_fails.


(** * Properties *)

(** ** Kernel discovery *)

Lemma ifname_walk (oz : ip_origin) (attrs : list rtattr) (l : list if_interface) :
  fold_left
    (fun interfaces hdr =>
       if rta_type hdr =? IFLA_IFNAME
       then list_add (make_interface_ipv4 oz (rta_data hdr)) interfaces
       else interfaces) attrs l
  = rev (map (make_interface_ipv4 oz)
           (map rta_data (List.filter (fun hdr => rta_type hdr =? IFLA_IFNAME) attrs))) ++ l.
Proof.
  revert l. induction attrs as [|hdr attrs IH]; intros l; [reflexivity|].
  cbn [fold_left List.filter]. rewrite IH.
  destruct (rta_type hdr =? IFLA_IFNAME); [|reflexivity].
  cbn [map rev]. unfold list_add. now rewrite <- app_assoc.
Qed.

Lemma ls_interfaces_cb_adds (oz : ip_origin) (msg : nl_msg) (l : list if_interface) :
  ls_interfaces_cb oz msg l
  = rev (map (make_interface_ipv4 oz) (answer_names [msg])) ++ l.
Proof.
  unfold ls_interfaces_cb, answer_names. cbn [flat_map].
  rewrite app_nil_r. apply ifname_walk.
Qed.

Lemma nl_recvmsgs_default_adds (oz : ip_origin) (answer : list nl_msg)
    (l : list if_interface) :
  nl_recvmsgs_default (ls_interfaces_cb oz) answer l
  = rev (map (make_interface_ipv4 oz) (answer_names answer)) ++ l.
Proof.
  unfold nl_recvmsgs_default. revert l.
  induction answer as [|msg answer IH]; intros l; [reflexivity|].
  cbn [fold_left]. rewrite IH, ls_interfaces_cb_adds.
  unfold answer_names. cbn [flat_map].
  rewrite app_nil_r, map_app, rev_app_distr, <- app_assoc. reflexivity.
Qed.

(** C3, as the code has it: discovery puts one new record, with IPv4
    enabled, in front of the registry for every interface-name attribute
    of the answer. No record is looked up by name, so a name met twice
    gets two records, and the records appear newest first, ahead of the
    records the registry already held. *)
Theorem ls_interfaces_registry (oz : ip_origin) (answer : list nl_msg) (ctx : plugin_ctx) :
  interfaces (ls_interfaces oz answer ctx)
    = rev (map (make_interface_ipv4 oz) (answer_names answer)) ++ interfaces ctx
  /\ map name (interfaces (ls_interfaces oz answer ctx))
    = map Some (rev (answer_names answer)) ++ map name (interfaces ctx)
  /\ Forall (fun iface => enabled (ipv4 (proto iface)) = true)
       (rev (map (make_interface_ipv4 oz) (answer_names answer)))
  /\ length (interfaces (ls_interfaces oz answer ctx))
    = (length (answer_names answer) + length (interfaces ctx))%nat.
Proof.
  assert (E : interfaces (ls_interfaces oz answer ctx)
              = rev (map (make_interface_ipv4 oz) (answer_names answer)) ++ interfaces ctx).
  { unfold ls_interfaces. cbn [interfaces with_interfaces].
    apply nl_recvmsgs_default_adds. }
  split; [exact E|]. split; [|split].
  - rewrite E, map_app, map_rev, map_map, map_rev. reflexivity.
  - apply Forall_rev, Forall_forall. intros iface Hin.
    apply list_elem_of_In, in_map_iff in Hin. destruct Hin as (n & <- & _). reflexivity.
  - rewrite E, length_app, length_rev, length_map. reflexivity.
Qed.

(** C3, as stated, fails: the answer lo, eth0, eth0 into an empty
    registry gives the records eth0, eth0, lo, not lo, eth0; and the
    answer lo, eth0 alone gives eth0, lo. *)
Lemma ls_interfaces_repeats_and_reverses :
  let ctx := ls_interfaces ORIGIN_OTHER answer_lo_eth0_eth0 (sample_ctx [] writable_uci) in
  let ctx' := ls_interfaces ORIGIN_OTHER [link_msg 1 "lo"; link_msg 2 "eth0"]
                (sample_ctx [] writable_uci) in
  answer_names answer_lo_eth0_eth0 = ["lo"; "eth0"; "eth0"]
  /\ first_seen [] (answer_names answer_lo_eth0_eth0) = ["lo"; "eth0"]
  /\ map name (interfaces ctx) = [Some "eth0"; Some "eth0"; Some "lo"]
  /\ map name (interfaces ctx)
     <> map Some (first_seen [] (answer_names answer_lo_eth0_eth0))
  /\ map name (interfaces ctx') = [Some "eth0"; Some "lo"].
Proof.
  cbv zeta. repeat split; try reflexivity. vm_compute. discriminate.
Qed.

(** ** Pull: the queries *)


(** One query of the pull sequence: name its answer, split on its
    code and let the field projections compute. *)
Ltac pull_query sess path :=
  let rc := fresh "rc" in
  let val := fresh "val" in
  let E := fresh "E" in
  destruct (sr_get_item sess path) as [rc val] eqn:E;
  destruct (Z.eqb_spec rc SR_ERR_OK);
  cbn [set_enabled set_forwarding set_origin_field set_mtu_field set_address_ip
       set_prefix_length with_ipv4 proto ipv4 address ip subnet prefix_length
       enabled forwarding origin mtu].

(** ** Push: what reaches the configuration store *)

Lemma uci_set_other (u : uci_context) (section option value : string)
    (key : string * string) :
  key <> (section, option) ->
  uci_options (snd (uci_set u section option value)) !! key = uci_options u !! key.
Proof.
  intros Hne. unfold uci_set. destruct (uci_refused u section option); cbn; [reflexivity|].
  now apply lookup_insert_ne.
Qed.

Lemma model_to_uci_iface_other (k : uci_names) (u : uci_context) (iface : if_interface)
    (section option : string) :
  option ∉ written_options k \/ type iface <> Some section ->
  uci_options (model_to_uci_iface k u iface) !! (section, option)
    = uci_options u !! (section, option).
Proof.
  intros H. unfold model_to_uci_iface. destruct (type iface) as [t|] eqn:Et; [|reflexivity].
  assert (Hne : forall o, o ∈ written_options k -> (section, option) <> (t, o)).
  { intros o Ho [= -> ->]. destruct H as [H|H]; [now apply H | now apply H]. }
  unfold set_operstate, set_origin, set_mtu, set_ip4.
  rewrite !uci_set_other; [reflexivity|..]; apply Hne; unfold written_options;
    rewrite !elem_of_cons; auto.
Qed.

Lemma model_to_uci_loop_other (k : uci_names) (l : list if_interface) (u : uci_context)
    (section option : string) :
  option ∉ written_options k \/ Some section ∉ map type l ->
  uci_options (fold_left (model_to_uci_iface k) l u) !! (section, option)
    = uci_options u !! (section, option).
Proof.
  revert u. induction l as [|iface l IH]; intros u H; [reflexivity|].
  cbn [fold_left]. rewrite IH.
  - apply model_to_uci_iface_other. destruct H as [H|H]; [now left|right].
    intros E. apply H. cbn [map]. rewrite E. apply list_elem_of_here.
  - destruct H as [H|H]; [now left|right]. cbn [map] in H.
    intros Hin. apply H. now apply list_elem_of_further.
Qed.

Lemma model_to_uci_iface_ignores (k : uci_names) (u : uci_context) (iface : if_interface)
    (b : bool) (n : Z) :
  model_to_uci_iface k u (set_forwarding b (set_prefix_length n iface))
    = model_to_uci_iface k u iface.
Proof. reflexivity. Qed.

Lemma model_to_uci_loop_ignores (k : uci_names) (l : list if_interface) (u : uci_context)
    (fw : if_interface -> bool) (pl : if_interface -> Z) :
  fold_left (model_to_uci_iface k)
    (map (fun iface => set_forwarding (fw iface) (set_prefix_length (pl iface) iface)) l) u
    = fold_left (model_to_uci_iface k) l u.
Proof.
  revert u. induction l as [|iface l IH]; intros u; [reflexivity|].
  cbn [map fold_left]. now rewrite model_to_uci_iface_ignores, IH.
Qed.

(** C8: the push changes an option of the configuration store only if
    it is the operational-state, origin, mtu or IPv4 address option of a
    section that is the type of a record; every other option keeps its
    value. What the store holds afterwards does not depend on the
    forwarding and prefix-length attributes of the records. *)
Theorem model_to_uci_frame (k : uci_names) (ctx : plugin_ctx) :
  (forall section option : string,
      uci_options (uctx (snd (model_to_uci k ctx))) !! (section, option)
        <> uci_options (uctx ctx) !! (section, option) ->
      option ∈ written_options k /\ Some section ∈ map type (interfaces ctx))
  /\ (forall (fw : if_interface -> bool) (pl : if_interface -> Z),
      uctx (snd (model_to_uci k
                   (with_interfaces
                      (map (fun iface =>
                              set_forwarding (fw iface) (set_prefix_length (pl iface) iface))
                           (interfaces ctx)) ctx)))
        = uctx (snd (model_to_uci k ctx))).
Proof.
  split.
  - intros section option Hchanged.
    destruct (decide (option ∈ written_options k)) as [Ho|Ho];
      destruct (decide (Some section ∈ map type (interfaces ctx))) as [Hs|Hs];
      try (split; assumption); exfalso; apply Hchanged;
      cbn [model_to_uci snd uctx with_uctx]; apply model_to_uci_loop_other; auto.
  - intros fw pl. cbn [model_to_uci snd uctx with_uctx interfaces with_interfaces].
    apply model_to_uci_loop_ignores.
Qed.

(** The push of eth0 (section lan) changes the mtu option of lan. *)
Lemma model_to_uci_frame_witness :
  "mtu" ∈ written_options sample_names
  /\ Some "lan" ∈ map type [sample_interface "eth0" (Some "lan") 1500].
Proof.
  apply (proj1 (model_to_uci_frame sample_names
                  (sample_ctx [sample_interface "eth0" (Some "lan") 1500] writable_uci))
           "lan" "mtu").
  vm_compute. discriminate.
Defined.

(** ** Restart *)

Lemma restart_network_forks_once (wait_time : Z) (env : process_env) :
  forks (fst (restart_network wait_time env)) = 1%nat.
Proof.
  unfold restart_network.
  destruct (fork_result env >? 0); [destruct (execv_succeeds env)|]; reflexivity.
Qed.

(** In the process that called [fork], the restart sleeps and then
    replaces or ends that process: the call does not return. *)
Lemma restart_network_in_caller (wait_time : Z) (env : process_env) :
  0 < fork_result env ->
  In (sys_sleep wait_time) (fst (restart_network wait_time env))
  /\ snd (restart_network wait_time env) <> Returns tt.
Proof.
  intros Hpid. unfold restart_network.
  destruct (Z.gtb_spec (fork_result env) 0); [|lia].
  destruct (execv_succeeds env); cbn; split; auto; discriminate.
Qed.

(** Where [fork] gives [0] (the new process) or [-1] (no process), the
    call returns at once. *)
Lemma restart_network_elsewhere (wait_time : Z) (env : process_env) :
  fork_result env <= 0 ->
  restart_network wait_time env = ([sys_fork], Returns tt).
Proof.
  intros Hpid. unfold restart_network.
  destruct (Z.gtb_spec (fork_result env) 0); [lia|reflexivity].
Qed.

(** C2, on the code: with a delay of 3 seconds and [fork] returning the
    pid 4242 of the new process, the calling process itself sleeps for
    the delay, runs the restart command in its own place and never
    returns to the change handler; the process that goes on is the new
    one, which got [0] from [fork]. *)
Lemma restart_network_blocks_the_caller :
  restart_network 3 in_parent
    = ([sys_fork; sys_sleep 3;
        sys_execv "/etc/init.d/network" ["/etc/init.d/network"; "restart"]], Replaced)
  /\ restart_network 3 in_child = ([sys_fork], Returns tt).
Proof. split; reflexivity. Qed.

(** ** The change-notification handler *)

Lemma module_change_cb_unfold (k : uci_names) (w : Z) (sess : sr_session_ctx_t)
    (event : sr_notif_event_t) (ctx : plugin_ctx) (env : process_env) :
  is_verify event = false ->
  module_change_cb k w sess event ctx env
  = {| run_ctx := snd (model_to_uci k (snd (sysrepo_to_model sess ctx)));
       run_trace := fst (restart_network w env);
       run_outcome := match snd (restart_network w env) with
                      | Returns _ => Returns SR_ERR_OK
                      | Replaced => Replaced
                      | Exits status => Exits status
                      end |}.
Proof.
  intros Hev. unfold module_change_cb. rewrite Hev.
  cbn [sysrepo_to_model model_to_uci snd Z.eqb SR_ERR_OK UCI_OK negb].
  destruct (restart_network w env) as [trace ended]. reflexivity.
Qed.

(** C5: an apply event makes exactly the system calls of one call of
    [restart_network] with the configured delay, whatever the number of
    records in the registry: one [fork] per event. *)
Theorem module_change_cb_restarts_once (k : uci_names) (RESTART_TIME_TO_WAIT : Z)
    (sess : sr_session_ctx_t) (ctx : plugin_ctx) (env : process_env) :
  let r := module_change_cb k RESTART_TIME_TO_WAIT sess SR_EV_APPLY ctx env in
  run_trace r = fst (restart_network RESTART_TIME_TO_WAIT env)
  /\ forks (run_trace r) = 1%nat.
Proof.
  cbv zeta. rewrite module_change_cb_unfold by reflexivity. cbn [run_trace].
  split; [reflexivity | apply restart_network_forks_once].
Qed.

(** ** Neighbor discovery *)

Lemma neighbor_get_addr_cb_incomplete (obj : Neighbor.rtnl_neigh) (m : Neighbor.memory) :
  Neighbor.complete obj = false -> Neighbor.neighbor_get_addr_cb obj m = m.
Proof.
  unfold Neighbor.complete, Neighbor.neighbor_get_addr_cb.
  destruct (Neighbor.lladdr obj), (Neighbor.dst obj); intros H; try reflexivity.
  discriminate.
Qed.

(** A complete entry leaves both fields of the record pointing to the
    one array of the callback, which holds the text printed last: the
    destination address. *)
Lemma neighbor_get_addr_cb_complete (obj : Neighbor.rtnl_neigh) (m : Neighbor.memory)
    (lladdr ipaddr : string) :
  Neighbor.lladdr obj = Some lladdr ->
  Neighbor.dst obj = Some ipaddr ->
  Neighbor.neighbor_get_addr_cb obj m
  = {| Neighbor.buf := ipaddr;
       Neighbor.plugin_neigh := {| Neighbor.link_layer_address := Neighbor.stack_buf;
                                   Neighbor.ip := Neighbor.stack_buf |} |}.
Proof.
  intros Hl Hd. unfold Neighbor.neighbor_get_addr_cb. now rewrite Hl, Hd.
Qed.

Lemma nl_cache_foreach_last (cache : list Neighbor.rtnl_neigh) (m : Neighbor.memory) :
  Neighbor.nl_cache_foreach cache m
  = match last (List.filter Neighbor.complete cache) with
    | None => m
    | Some obj =>
        {| Neighbor.buf := default "" (Neighbor.dst obj);
           Neighbor.plugin_neigh := {| Neighbor.link_layer_address := Neighbor.stack_buf;
                                       Neighbor.ip := Neighbor.stack_buf |} |}
    end.
Proof.
  unfold Neighbor.nl_cache_foreach. revert m.
  induction cache as [|obj cache IH]; intros m; [reflexivity|].
  cbn [fold_left List.filter]. rewrite IH.
  destruct (Neighbor.complete obj) eqn:Hc.
  - destruct (List.filter Neighbor.complete cache) as [|obj' rest];
      [|rewrite last_cons_cons; destruct (last (obj' :: rest)) eqn:E;
        [reflexivity | apply last_None in E; discriminate]].
    cbn [last]. unfold Neighbor.complete in Hc.
    destruct (Neighbor.lladdr obj) as [l|] eqn:Hl; [|discriminate].
    destruct (Neighbor.dst obj) as [d|] eqn:Hd; [|discriminate].
    now rewrite (neighbor_get_addr_cb_complete obj m l d Hl Hd).
  - now rewrite neighbor_get_addr_cb_incomplete.
Qed.

(** Whatever netlink answers, the record is either left as it was or
    has both fields pointing to the callback's array. *)
Lemma neighbor_get_addr_one_buffer (env : Neighbor.netlink_env) (m : Neighbor.memory) :
  let m' := Neighbor.neighbor_get_addr env m in
  m' = m
  \/ (Neighbor.link_layer_address (Neighbor.plugin_neigh m') = Neighbor.stack_buf
      /\ Neighbor.ip (Neighbor.plugin_neigh m') = Neighbor.stack_buf
      /\ Neighbor.deref m' (Neighbor.link_layer_address (Neighbor.plugin_neigh m'))
         = Neighbor.deref m' (Neighbor.ip (Neighbor.plugin_neigh m'))).
Proof.
  cbv zeta. unfold Neighbor.neighbor_get_addr.
  destruct (Neighbor.socket_allocated env); cbn [negb]; [|now left].
  destruct (Neighbor.connect_rc env =? SR_ERR_OK); cbn [negb]; [|now left].
  destruct (Neighbor.cache_rc env =? SR_ERR_OK); cbn [negb]; [|now left].
  rewrite nl_cache_foreach_last.
  destruct (last (List.filter Neighbor.complete (Neighbor.neighbor_cache env)));
    [right; repeat split | now left].
Qed.

(** C10, on the code: after a cache with the single complete entry
    (00:11:22:33:44:55, 192.168.1.7) both fields of the output record
    are the address of the callback's one local array, which holds the
    text of the IP address; the link-layer text has been overwritten, so
    the record does not hold the pair. *)
Lemma neighbor_record_aliases_one_buffer :
  let m := Neighbor.neighbor_get_addr (netlink_up one_neighbor) empty_memory in
  Neighbor.link_layer_address (Neighbor.plugin_neigh m) = Neighbor.stack_buf
  /\ Neighbor.ip (Neighbor.plugin_neigh m) = Neighbor.stack_buf
  /\ Neighbor.deref m (Neighbor.ip (Neighbor.plugin_neigh m)) = Some "192.168.1.7"
  /\ Neighbor.deref m (Neighbor.link_layer_address (Neighbor.plugin_neigh m))
     = Some "192.168.1.7"
  /\ Neighbor.deref m (Neighbor.link_layer_address (Neighbor.plugin_neigh m))
     <> Some "00:11:22:33:44:55".
Proof. cbv zeta. repeat split. vm_compute. discriminate. Qed.

(** ** Operational data *)

(** C6, on the code: a query for the node ipv6, with one record in the
    registry and the caller's counter holding 4, takes the last branch
    (the local array holds no path): the caller's pointer is set to
    null, but the counter is not written and still reads 4. When the
    local array happens to hold a path ending in statistics, the same
    query is answered with the four counters. *)
Lemma data_provider_cb_other_node :
  let ctx := sample_ctx [sample_interface "eth0" (Some "lan") 1500] writable_uci in
  Provider.sr_xpath_node_name query_ipv6 = Some "ipv6"
  /\ Provider.data_provider_cb sample_scripts query_ipv6 None 4 ctx
       {| Provider.stack_xpath := ""; Provider.sh := counters_shell;
          Provider.alloc_rc := SR_ERR_OK |}
     = Provider.dp_returns SR_ERR_OK None 4
  /\ (exists v,
       Provider.data_provider_cb sample_scripts query_ipv6 None 0 ctx
         {| Provider.stack_xpath := query_statistics; Provider.sh := counters_shell;
            Provider.alloc_rc := SR_ERR_OK |}
       = Provider.dp_returns SR_ERR_OK (Some v) 4
       /\ length v = 4%nat).
Proof.
  cbv zeta. split; [reflexivity|]. split; [reflexivity|].
  eexists. split; [vm_compute; reflexivity|reflexivity].
Qed.

(** The statistics branch itself, entered with one record in the
    registry: four values, out-octets, out-errors, in-octets, in-errors,
    and [0] for the counter whose query fails. *)
Example statistics_branch_rx_down :
  Provider.data_provider_cb sample_scripts query_statistics None 0
    (sample_ctx [sample_interface "eth0" (Some "lan") 1500] writable_uci)
    {| Provider.stack_xpath := query_statistics; Provider.sh := counters_shell_rx_down;
       Provider.alloc_rc := SR_ERR_OK |}
  = Provider.dp_returns SR_ERR_OK
      (Some
         [ {| val_xpath := Some (query_statistics +:+ "/out-octets");
              val_type := SR_UINT64_T; val_data := data_uint 100 |};
           {| val_xpath := Some (query_statistics +:+ "/out-errors");
              val_type := SR_UINT32_T; val_data := data_uint 0 |};
           {| val_xpath := Some (query_statistics +:+ "/in-octets");
              val_type := SR_UINT64_T; val_data := data_uint 0 |};
           {| val_xpath := Some (query_statistics +:+ "/in-errors");
              val_type := SR_UINT32_T; val_data := data_uint 2 |} ])
      4.
Proof. vm_compute. reflexivity. Qed.

(** C7, on the code: the query for the node statistics is not what the
    dispatch reads. With the local array holding no path the query gets
    a null pointer and no counter at all, the caller's counter being
    left as it was. With the local array holding the path of the query
    and two records in the registry, the second turn of the loop undoes
    the first: the pointer is null again while the counter says 4. *)
Lemma data_provider_cb_statistics_lost :
  let eth0 := sample_interface "eth0" (Some "lan") 1500 in
  let eth1 := sample_interface "eth1" None 1500 in
  Provider.data_provider_cb sample_scripts query_statistics None 0
    (sample_ctx [eth0] writable_uci)
    {| Provider.stack_xpath := ""; Provider.sh := counters_shell;
       Provider.alloc_rc := SR_ERR_OK |}
  = Provider.dp_returns SR_ERR_OK None 0
  /\ Provider.data_provider_cb sample_scripts query_statistics None 0
       (sample_ctx [eth0; eth1] writable_uci)
       {| Provider.stack_xpath := query_statistics; Provider.sh := counters_shell;
          Provider.alloc_rc := SR_ERR_OK |}
     = Provider.dp_returns SR_ERR_OK None 4.
Proof. cbv zeta. split; vm_compute; reflexivity. Qed.

(** *** General behaviour of the provider's loop *)

Lemma dp_iface_undispatched (c : scripts) (env : Provider.dp_env) (key : string)
    (st : Provider.dp_state) (iface : if_interface) :
  dispatches (Provider.xpath st) = false ->
  Provider.dp_iface c env key st iface = Provider.dp_next (dropped st).
Proof.
  unfold dispatches, Provider.dp_iface. intros H.
  apply orb_false_elim in H as [H H3]. apply orb_false_elim in H as [H1 H2].
  now rewrite H1, H2, H3.
Qed.

(** Once the local array holds a path none of the branches is taken
    for, every further turn takes the last branch. *)
Lemma dp_loop_undispatched (c : scripts) (env : Provider.dp_env) (key : string)
    (l : list if_interface) (st : Provider.dp_state) :
  dispatches (Provider.xpath st) = false ->
  Provider.dp_loop c env key l st
  = Provider.dp_next (match l with [] => st | _ :: _ => dropped st end).
Proof.
  revert st. induction l as [|iface l IH]; intros st H; [reflexivity|].
  cbn [Provider.dp_loop]. rewrite dp_iface_undispatched by exact H.
  rewrite IH by exact H. destruct l; reflexivity.
Qed.

(** Whatever the query, with a registry that is not empty and a local
    array that does not dispatch, the caller's pointer is set to null
    and the caller's counter keeps the value it had. *)
Lemma data_provider_cb_undispatched (c : scripts) (cb_xpath : string)
    (values0 : option (list sr_val_t)) (cnt0 : Z) (ctx : plugin_ctx)
    (env : Provider.dp_env) :
  dispatches (Provider.stack_xpath env) = false ->
  interfaces ctx <> [] ->
  Provider.data_provider_cb c cb_xpath values0 cnt0 ctx env
  = Provider.dp_returns SR_ERR_OK None cnt0.
Proof.
  intros H Hl. unfold Provider.data_provider_cb.
  rewrite dp_loop_undispatched by exact H.
  destruct (interfaces ctx); [contradiction|reflexivity].
Qed.

Lemma node_name_app (a b n : string) :
  Provider.sr_xpath_node_name b = Some n ->
  Provider.sr_xpath_node_name (a +:+ b) = Some n.
Proof.
  intros H. induction a as [|ch a IH]; [exact H|].
  change (Provider.sr_xpath_node_name (String ch (a +:+ b)) = Some n).
  cbn [Provider.sr_xpath_node_name]. now rewrite IH.
Qed.

(** The path left in the local array by each answering branch ends in
    a node none of the branches is taken for. *)
Lemma answered_path_node (if_name node n : string) :
  Provider.sr_xpath_node_name ("']/" +:+ node +:+ "") = Some n ->
  Provider.sr_xpath_node_name (sprintf Provider.xpath_fmt [if_name; node]) = Some n.
Proof.
  intros H.
  change (sprintf Provider.xpath_fmt [if_name; node])
    with ("/ietf-interfaces:interfaces-state/interface[name='"
            +:+ (if_name +:+ ("']/" +:+ node +:+ ""))).
  now apply node_name_app, node_name_app.
Qed.

Lemma answered_path_undispatched (if_name node n : string) :
  Provider.sr_xpath_node_name ("']/" +:+ node +:+ "") = Some n ->
  String.eqb n "interface" = false ->
  String.eqb n "statistics" = false ->
  String.eqb n "ipv4" = false ->
  dispatches (sprintf Provider.xpath_fmt [if_name; node]) = false.
Proof.
  intros H H1 H2 H3. unfold dispatches, Provider.sr_xpath_node_name_eq.
  rewrite (answered_path_node if_name node n H). now rewrite H1, H2, H3.
Qed.

(** The statistics branch, entered on a fresh call with the allocation
    succeeding: four values in the order out-octets, out-errors,
    in-octets, in-errors, each the result of its own query. *)
Lemma answer_statistics (c : scripts) (env : Provider.dp_env) (key if_name : string)
    (st : Provider.dp_state) :
  Provider.values_cnt st = true ->
  Provider.i_v st = 0%nat ->
  Provider.alloc_rc env = SR_ERR_OK ->
  let path node := Some (sprintf Provider.xpath_fmt [if_name; node]) in
  let v :=
    [ {| val_xpath := path "statistics/out-octets"; val_type := SR_UINT64_T;
         val_data := data_uint (counter (Provider.sh env) (cmd_tx c) key) |};
      {| val_xpath := path "statistics/out-errors"; val_type := SR_UINT32_T;
         val_data := data_uint (counter (Provider.sh env) (cmd_tx_err c) key mod 2 ^ 32) |};
      {| val_xpath := path "statistics/in-octets"; val_type := SR_UINT64_T;
         val_data := data_uint (counter (Provider.sh env) (cmd_rx c) key) |};
      {| val_xpath := path "statistics/in-errors"; val_type := SR_UINT32_T;
         val_data := data_uint (counter (Provider.sh env) (cmd_rx_err c) key mod 2 ^ 32) |} ] in
  Provider.answer env 4 (Provider.statistics_body c env key if_name) st
  = Provider.dp_next
      {| Provider.xpath := sprintf Provider.xpath_fmt [if_name; "statistics/in-errors"];
         Provider.v := Some v; Provider.i_v := 4%nat; Provider.values := Some v;
         Provider.values_cnt := true; Provider.cnt := 4 |}.
Proof.
  intros Hp Hi Ha. cbv zeta. unfold Provider.answer, Provider.sr_new_values.
  rewrite Hp, Ha. cbn [negb Z.eqb SR_ERR_OK].
  unfold Provider.statistics_body, Provider.emit. cbn [Provider.v Provider.i_v].
  rewrite Hi. reflexivity.
Qed.

(** The first turn of the loop: it ends the call only when the
    allocation fails, it does not fault, and it leaves in the local
    array a path that does not dispatch. *)
Lemma dp_iface_first (c : scripts) (env : Provider.dp_env) (key : string)
    (st : Provider.dp_state) (iface : if_interface) :
  Provider.values_cnt st = true ->
  Provider.i_v st = 0%nat ->
  match Provider.dp_iface c env key st iface with
  | Provider.dp_next st' => dispatches (Provider.xpath st') = false
  | Provider.dp_stop rc _ => rc = Provider.alloc_rc env /\ rc <> SR_ERR_OK
  | Provider.dp_fault => False
  end.
Proof.
  intros Hp Hi. unfold Provider.dp_iface.
  destruct (Provider.sr_xpath_node_name_eq (Provider.xpath st) "interface") eqn:H1;
    [|destruct (Provider.sr_xpath_node_name_eq (Provider.xpath st) "statistics") eqn:H2;
      [|destruct (Provider.sr_xpath_node_name_eq (Provider.xpath st) "ipv4") eqn:H3]].
  4: { cbn [Provider.xpath]. unfold dispatches. now rewrite H1, H2, H3. }
  all: unfold Provider.answer, Provider.sr_new_values; rewrite Hp; cbn [negb];
    destruct (Z.eqb_spec (Provider.alloc_rc env) SR_ERR_OK) as [Ha|Ha];
    [|cbn [negb]; destruct (Z.eqb_spec (Provider.alloc_rc env) SR_ERR_OK);
      [contradiction | split; [reflexivity | assumption]]].
  all: cbn [negb Z.eqb SR_ERR_OK].
  all: unfold Provider.interface_body, Provider.statistics_body, Provider.ipv4_body,
         Provider.emit; cbn [Provider.v Provider.i_v]; rewrite Hi.
  - apply (answered_path_undispatched _ "speed" "speed"); reflexivity.
  - apply (answered_path_undispatched _ "statistics/in-errors" "in-errors"); reflexivity.
  - apply (answered_path_undispatched _ "statistics/ipv4/mtu" "mtu"); reflexivity.
Qed.

(** With two records or more and the allocation succeeding, the call
    ends with the caller's pointer set to null, whatever was asked and
    whatever the local array held. *)
Lemma data_provider_cb_two_records (c : scripts) (cb_xpath : string)
    (values0 : option (list sr_val_t)) (cnt0 : Z) (ctx : plugin_ctx)
    (env : Provider.dp_env) (i1 i2 : if_interface) (l : list if_interface) :
  interfaces ctx = i1 :: i2 :: l ->
  Provider.alloc_rc env = SR_ERR_OK ->
  exists n, Provider.data_provider_cb c cb_xpath values0 cnt0 ctx env
            = Provider.dp_returns SR_ERR_OK None n.
Proof.
  intros Hl Ha. unfold Provider.data_provider_cb. rewrite Hl.
  cbn [Provider.dp_loop].
  match goal with
  | |- context [Provider.dp_iface c env ?k ?st i1] =>
      pose proof (dp_iface_first c env k st i1 eq_refl eq_refl) as H;
      destruct (Provider.dp_iface c env k st i1) as [st'|rc st'|]
  end.
  - pose proof (dp_loop_undispatched c env (key ctx) (i2 :: l) st' H) as E.
    cbn [Provider.dp_loop] in E. rewrite E. eexists. reflexivity.
  - destruct H as [-> H]. contradiction.
  - contradiction.
Qed.

(** A query that fails leaves [0] in its counter. *)
Lemma counter_of_failed_query (sh : shell) (cmd cmd_arg : string) :
  sh cmd = popen_fails \/ (exists status, sh cmd = pipe_of None status) ->
  counter sh cmd cmd_arg = 0.
Proof.
  unfold counter, int_from_cmd. intros [H|[status H]]; now rewrite H.
Qed.

(** The statistics answer in the one setting in which it is given: the
    local array already holds a path ending in statistics, and the
    registry has a single record. *)
Lemma data_provider_cb_statistics (c : scripts) (cb_xpath : string)
    (values0 : option (list sr_val_t)) (cnt0 : Z) (ctx : plugin_ctx)
    (env : Provider.dp_env) (iface : if_interface) :
  interfaces ctx = [iface] ->
  Provider.sr_xpath_node_name (Provider.stack_xpath env) = Some "statistics" ->
  Provider.alloc_rc env = SR_ERR_OK ->
  let path node :=
    Some (sprintf Provider.xpath_fmt [Provider.c_str (name iface); node]) in
  let query cmd := counter (Provider.sh env) cmd (key ctx) in
  Provider.data_provider_cb c cb_xpath values0 cnt0 ctx env
  = Provider.dp_returns SR_ERR_OK
      (Some
         [ {| val_xpath := path "statistics/out-octets"; val_type := SR_UINT64_T;
              val_data := data_uint (query (cmd_tx c)) |};
           {| val_xpath := path "statistics/out-errors"; val_type := SR_UINT32_T;
              val_data := data_uint (query (cmd_tx_err c) mod 2 ^ 32) |};
           {| val_xpath := path "statistics/in-octets"; val_type := SR_UINT64_T;
              val_data := data_uint (query (cmd_rx c)) |};
           {| val_xpath := path "statistics/in-errors"; val_type := SR_UINT32_T;
              val_data := data_uint (query (cmd_rx_err c) mod 2 ^ 32) |} ])
      4.
Proof.
  intros Hl Hn Ha. cbv zeta. unfold Provider.data_provider_cb. rewrite Hl.
  cbn [Provider.dp_loop]. unfold Provider.dp_iface, Provider.sr_xpath_node_name_eq.
  cbn [Provider.xpath]. rewrite Hn. cbn [String.eqb Ascii.eqb Bool.eqb].
  match goal with
  | |- context [Provider.answer env 4 _ ?st] =>
      rewrite (answer_statistics c env (key ctx) (Provider.c_str (name iface)) st
                 eq_refl eq_refl Ha)
  end.
  reflexivity.
Qed.

(** * Further properties *)

(** ** Operational data: the answers *)

Lemma data_provider_cb_undispatched_witness :
  Provider.data_provider_cb sample_scripts query_ipv6 None 7
    (sample_ctx [sample_interface "eth0" (Some "lan") 1500] writable_uci)
    {| Provider.stack_xpath := "/no/such/node"; Provider.sh := counters_shell;
       Provider.alloc_rc := SR_ERR_OK |}
  = Provider.dp_returns SR_ERR_OK None 7.
Proof.
  apply data_provider_cb_undispatched; [reflexivity | discriminate].
Defined.

Lemma data_provider_cb_two_records_witness :
  exists n,
    Provider.data_provider_cb sample_scripts query_statistics None 0
      (sample_ctx [sample_interface "eth0" (Some "lan") 1500;
                   sample_interface "eth1" None 1500] writable_uci)
      {| Provider.stack_xpath := query_statistics; Provider.sh := counters_shell;
         Provider.alloc_rc := SR_ERR_OK |}
    = Provider.dp_returns SR_ERR_OK None n.
Proof.
  apply (data_provider_cb_two_records sample_scripts query_statistics None 0 _ _
           (sample_interface "eth0" (Some "lan") 1500)
           (sample_interface "eth1" None 1500) []); reflexivity.
Defined.

Lemma data_provider_cb_statistics_witness :
  exists v,
    Provider.data_provider_cb sample_scripts query_statistics None 0
      (sample_ctx [sample_interface "eth0" (Some "lan") 1500] writable_uci)
      {| Provider.stack_xpath := query_statistics; Provider.sh := counters_shell;
         Provider.alloc_rc := SR_ERR_OK |}
    = Provider.dp_returns SR_ERR_OK (Some v) 4
    /\ val_data <$> v = [data_uint 100; data_uint 0; data_uint 50; data_uint 2].
Proof.
  eexists. split.
  - apply (data_provider_cb_statistics sample_scripts query_statistics None 0
             (sample_ctx [sample_interface "eth0" (Some "lan") 1500] writable_uci)
             {| Provider.stack_xpath := query_statistics; Provider.sh := counters_shell;
                Provider.alloc_rc := SR_ERR_OK |}
             (sample_interface "eth0" (Some "lan") 1500)); reflexivity.
  - reflexivity.
Defined.

(** When the local array dispatches and [sr_new_values] fails, the
    call returns the code of the allocation, leaves the caller's pointer
    as it was and has already set the caller's counter to the size of
    the answer it could not build. *)
Theorem data_provider_cb_allocation_fails (c : scripts) (cb_xpath : string)
    (values0 : option (list sr_val_t)) (cnt0 : Z) (ctx : plugin_ctx)
    (env : Provider.dp_env) :
  dispatches (Provider.stack_xpath env) = true ->
  interfaces ctx <> [] ->
  Provider.alloc_rc env <> SR_ERR_OK ->
  exists n, (n = 4 \/ n = 1)
    /\ Provider.data_provider_cb c cb_xpath values0 cnt0 ctx env
       = Provider.dp_returns (Provider.alloc_rc env) values0 n.
Proof.
  intros Hd Hl Ha. unfold Provider.data_provider_cb.
  destruct (interfaces ctx) as [|iface l]; [contradiction|].
  cbn [Provider.dp_loop]. unfold Provider.dp_iface. cbn [Provider.xpath].
  unfold dispatches in Hd.
  assert (E : forall n body st, Provider.values_cnt st = true ->
            Provider.answer env n body st
            = Provider.dp_stop (Provider.alloc_rc env)
                {| Provider.xpath := Provider.xpath st; Provider.v := Provider.v st;
                   Provider.i_v := Provider.i_v st; Provider.values := Provider.values st;
                   Provider.values_cnt := Provider.values_cnt st; Provider.cnt := n |}).
  { intros n body st Hp. unfold Provider.answer, Provider.sr_new_values.
    rewrite Hp. cbn [negb].
    destruct (Z.eqb_spec (Provider.alloc_rc env) SR_ERR_OK); [contradiction|].
    cbn [negb]. destruct (Z.eqb_spec (Provider.alloc_rc env) SR_ERR_OK);
      [contradiction|reflexivity]. }
  destruct (Provider.sr_xpath_node_name_eq (Provider.stack_xpath env) "interface");
    [|destruct (Provider.sr_xpath_node_name_eq (Provider.stack_xpath env) "statistics");
      [|destruct (Provider.sr_xpath_node_name_eq (Provider.stack_xpath env) "ipv4");
        [|discriminate]]];
    rewrite E by reflexivity; eexists; (split; [|reflexivity]); auto.
Qed.

Lemma data_provider_cb_allocation_fails_witness :
  exists n, (n = 4 \/ n = 1)
    /\ Provider.data_provider_cb sample_scripts query_statistics None 0
         (sample_ctx [sample_interface "eth0" (Some "lan") 1500] writable_uci)
         {| Provider.stack_xpath := query_statistics; Provider.sh := counters_shell;
            Provider.alloc_rc := 2 |}
       = Provider.dp_returns 2 None n.
Proof.
  apply (data_provider_cb_allocation_fails sample_scripts query_statistics None 0
           (sample_ctx [sample_interface "eth0" (Some "lan") 1500] writable_uci)
           {| Provider.stack_xpath := query_statistics; Provider.sh := counters_shell;
              Provider.alloc_rc := 2 |});
    [reflexivity | discriminate | discriminate].
Defined.

(** The interface branch, entered on a fresh call with the allocation
    succeeding. The text buffer is shared by the two text queries. *)
Lemma answer_interface (c : scripts) (env : Provider.dp_env) (key if_name : string)
    (st : Provider.dp_state) :
  Provider.values_cnt st = true ->
  Provider.i_v st = 0%nat ->
  Provider.alloc_rc env = SR_ERR_OK ->
  let path node := Some (sprintf Provider.xpath_fmt [if_name; node]) in
  let status := snd (str_from_cmd (Provider.sh env) (cmd_enabled c) key "") in
  let mac := snd (str_from_cmd (Provider.sh env) (cmd_mac c) key status) in
  let v :=
    [ {| val_xpath := path "type"; val_type := SR_IDENTITYREF_T;
         val_data := data_string "ethernetCsmacd" |};
      {| val_xpath := path "oper-status"; val_type := SR_ENUM_T;
         val_data := data_string status |};
      {| val_xpath := path "phys-address"; val_type := SR_STRING_T;
         val_data := data_string mac |};
      {| val_xpath := path "speed"; val_type := SR_UINT64_T;
         val_data := data_uint (counter (Provider.sh env) (cmd_speed c) key) |} ] in
  Provider.answer env 4 (Provider.interface_body c env key if_name) st
  = Provider.dp_next
      {| Provider.xpath := sprintf Provider.xpath_fmt [if_name; "speed"];
         Provider.v := Some v; Provider.i_v := 4%nat; Provider.values := Some v;
         Provider.values_cnt := true; Provider.cnt := 4 |}.
Proof.
  intros Hp Hi Ha. cbv zeta. unfold Provider.answer, Provider.sr_new_values.
  rewrite Hp, Ha. cbn [negb Z.eqb SR_ERR_OK].
  unfold Provider.interface_body, Provider.emit. cbn [Provider.v Provider.i_v].
  rewrite Hi. reflexivity.
Qed.

Lemma answer_ipv4 (c : scripts) (env : Provider.dp_env) (key if_name : string)
    (st : Provider.dp_state) :
  Provider.values_cnt st = true ->
  Provider.i_v st = 0%nat ->
  Provider.alloc_rc env = SR_ERR_OK ->
  let v :=
    [ {| val_xpath := Some (sprintf Provider.xpath_fmt [if_name; "statistics/ipv4/mtu"]);
         val_type := SR_UINT16_T;
         val_data := data_uint (counter (Provider.sh env) (cmd_mtu c) key mod 2 ^ 16) |} ] in
  Provider.answer env 1 (Provider.ipv4_body c env key if_name) st
  = Provider.dp_next
      {| Provider.xpath := sprintf Provider.xpath_fmt [if_name; "statistics/ipv4/mtu"];
         Provider.v := Some v; Provider.i_v := 1%nat; Provider.values := Some v;
         Provider.values_cnt := true; Provider.cnt := 1 |}.
Proof.
  intros Hp Hi Ha. cbv zeta. unfold Provider.answer, Provider.sr_new_values.
  rewrite Hp, Ha. cbn [negb Z.eqb SR_ERR_OK].
  unfold Provider.ipv4_body, Provider.emit. cbn [Provider.v Provider.i_v].
  rewrite Hi. reflexivity.
Qed.

(** The answer given when the local array holds a path ending in
    interface and the registry has a single record: the fixed type, the
    operational status, the physical address and the speed, in this
    order, the speed being [0] when its query gives no number. *)
Theorem data_provider_cb_interface (c : scripts) (cb_xpath : string)
    (values0 : option (list sr_val_t)) (cnt0 : Z) (ctx : plugin_ctx)
    (env : Provider.dp_env) (iface : if_interface) :
  interfaces ctx = [iface] ->
  Provider.sr_xpath_node_name (Provider.stack_xpath env) = Some "interface" ->
  Provider.alloc_rc env = SR_ERR_OK ->
  let path node :=
    Some (sprintf Provider.xpath_fmt [Provider.c_str (name iface); node]) in
  let status := snd (str_from_cmd (Provider.sh env) (cmd_enabled c) (key ctx) "") in
  let mac := snd (str_from_cmd (Provider.sh env) (cmd_mac c) (key ctx) status) in
  Provider.data_provider_cb c cb_xpath values0 cnt0 ctx env
  = Provider.dp_returns SR_ERR_OK
      (Some
         [ {| val_xpath := path "type"; val_type := SR_IDENTITYREF_T;
              val_data := data_string "ethernetCsmacd" |};
           {| val_xpath := path "oper-status"; val_type := SR_ENUM_T;
              val_data := data_string status |};
           {| val_xpath := path "phys-address"; val_type := SR_STRING_T;
              val_data := data_string mac |};
           {| val_xpath := path "speed"; val_type := SR_UINT64_T;
              val_data := data_uint (counter (Provider.sh env) (cmd_speed c) (key ctx)) |} ])
      4.
Proof.
  intros Hl Hn Ha. cbv zeta. unfold Provider.data_provider_cb. rewrite Hl.
  cbn [Provider.dp_loop]. unfold Provider.dp_iface, Provider.sr_xpath_node_name_eq.
  cbn [Provider.xpath]. rewrite Hn. cbn [String.eqb Ascii.eqb Bool.eqb].
  match goal with
  | |- context [Provider.answer env 4 _ ?st] =>
      rewrite (answer_interface c env (key ctx) (Provider.c_str (name iface)) st
                 eq_refl eq_refl Ha)
  end.
  reflexivity.
Qed.

Lemma data_provider_cb_interface_witness :
  exists v,
    Provider.data_provider_cb sample_scripts query_interface None 0
      (sample_ctx [sample_interface "eth0" (Some "lan") 1500] writable_uci)
      {| Provider.stack_xpath := query_interface; Provider.sh := status_shell;
         Provider.alloc_rc := SR_ERR_OK |}
    = Provider.dp_returns SR_ERR_OK (Some v) 4
    /\ val_data <$> v = [data_string "ethernetCsmacd"; data_string "up";
                         data_string "up"; data_uint 1000].
Proof.
  eexists. split.
  - apply (data_provider_cb_interface sample_scripts query_interface None 0
             (sample_ctx [sample_interface "eth0" (Some "lan") 1500] writable_uci)
             {| Provider.stack_xpath := query_interface; Provider.sh := status_shell;
                Provider.alloc_rc := SR_ERR_OK |}
             (sample_interface "eth0" (Some "lan") 1500)); reflexivity.
  - reflexivity.
Defined.

(** [str_from_cmd] leaves the caller's buffer as it was when no pipe
    could be opened, when the command printed no line, and when the
    line it printed has no word. *)
Lemma str_from_cmd_no_text (sh : shell) (cmd cmd_arg ptr : string) :
  sh (sprintf cmd_fmt [cmd; cmd_arg]) = popen_fails
  \/ (exists status, sh (sprintf cmd_fmt [cmd; cmd_arg]) = pipe_of None status)
  \/ (exists line status,
        sh (sprintf cmd_fmt [cmd; cmd_arg]) = pipe_of (Some line) status
        /\ sscanf_s line = None) ->
  snd (str_from_cmd sh cmd cmd_arg ptr) = ptr.
Proof.
  unfold str_from_cmd.
  intros [H|[[status H]|(line & status & H & Hw)]]; rewrite H; [reflexivity..|].
  cbn [snd]. now rewrite Hw.
Qed.

(** In the interface answer the physical address is printed into the
    buffer that still holds the operational status: when the MAC query
    gives no text (no pipe could be opened, the command is missing or
    prints nothing, or its line holds no word) the physical address
    reported is the status text. *)
Theorem data_provider_cb_mac_falls_back (c : scripts) (cb_xpath : string)
    (values0 : option (list sr_val_t)) (cnt0 : Z) (ctx : plugin_ctx)
    (env : Provider.dp_env) (iface : if_interface) :
  interfaces ctx = [iface] ->
  Provider.sr_xpath_node_name (Provider.stack_xpath env) = Some "interface" ->
  Provider.alloc_rc env = SR_ERR_OK ->
  Provider.sh env (sprintf cmd_fmt [cmd_mac c; key ctx]) = popen_fails
  \/ (exists status,
        Provider.sh env (sprintf cmd_fmt [cmd_mac c; key ctx]) = pipe_of None status)
  \/ (exists line status,
        Provider.sh env (sprintf cmd_fmt [cmd_mac c; key ctx])
        = pipe_of (Some line) status
        /\ sscanf_s line = None) ->
  exists v,
    Provider.data_provider_cb c cb_xpath values0 cnt0 ctx env
    = Provider.dp_returns SR_ERR_OK (Some v) 4
    /\ val_data <$> v !! 2%nat = val_data <$> v !! 1%nat
    /\ val_data <$> v !! 1%nat
       = Some (data_string
                 (snd (str_from_cmd (Provider.sh env) (cmd_enabled c) (key ctx) ""))).
Proof.
  intros Hl Hn Ha Hmac. eexists. split.
  - unfold Provider.data_provider_cb. rewrite Hl.
    cbn [Provider.dp_loop]. unfold Provider.dp_iface, Provider.sr_xpath_node_name_eq.
    cbn [Provider.xpath]. rewrite Hn. cbn [String.eqb Ascii.eqb Bool.eqb].
    match goal with
    | |- context [Provider.answer env 4 _ ?st] =>
        rewrite (answer_interface c env (key ctx) (Provider.c_str (name iface)) st
                   eq_refl eq_refl Ha)
    end.
    reflexivity.
  - cbn [lookup list_lookup fmap option_fmap option_map val_data].
    rewrite (str_from_cmd_no_text _ _ _ _ Hmac). split; reflexivity.
Qed.

(** The MAC script cannot be started, and the MAC script runs and
    prints nothing: in both cases the physical address reads "up". *)
Lemma data_provider_cb_mac_falls_back_witness :
  (exists v,
      Provider.data_provider_cb sample_scripts query_interface None 0
        (sample_ctx [sample_interface "eth0" (Some "lan") 1500] writable_uci)
        {| Provider.stack_xpath := query_interface; Provider.sh := status_shell;
           Provider.alloc_rc := SR_ERR_OK |}
      = Provider.dp_returns SR_ERR_OK (Some v) 4
      /\ val_data <$> v !! 2%nat = val_data <$> v !! 1%nat
      /\ val_data <$> v !! 1%nat = Some (data_string "up"))
  /\ (exists v,
         Provider.data_provider_cb sample_scripts query_interface None 0
           (sample_ctx [sample_interface "eth0" (Some "lan") 1500] writable_uci)
           {| Provider.stack_xpath := query_interface; Provider.sh := silent_mac_shell;
              Provider.alloc_rc := SR_ERR_OK |}
         = Provider.dp_returns SR_ERR_OK (Some v) 4
         /\ val_data <$> v !! 2%nat = val_data <$> v !! 1%nat
         /\ val_data <$> v !! 1%nat = Some (data_string "up")).
Proof.
  split.
  - apply (data_provider_cb_mac_falls_back sample_scripts query_interface None 0
             (sample_ctx [sample_interface "eth0" (Some "lan") 1500] writable_uci)
             {| Provider.stack_xpath := query_interface; Provider.sh := status_shell;
                Provider.alloc_rc := SR_ERR_OK |}
             (sample_interface "eth0" (Some "lan") 1500));
      [reflexivity | reflexivity | reflexivity |].
    left. reflexivity.
  - apply (data_provider_cb_mac_falls_back sample_scripts query_interface None 0
             (sample_ctx [sample_interface "eth0" (Some "lan") 1500] writable_uci)
             {| Provider.stack_xpath := query_interface; Provider.sh := silent_mac_shell;
                Provider.alloc_rc := SR_ERR_OK |}
             (sample_interface "eth0" (Some "lan") 1500));
      [reflexivity | reflexivity | reflexivity |].
    right. left. exists 127. reflexivity.
Defined.

(** The answer given when the local array holds a path ending in ipv4
    and the registry has a single record: one value, the low 16 bits of
    the number the MTU query gives, [0] when it gives none. *)
Theorem data_provider_cb_ipv4 (c : scripts) (cb_xpath : string)
    (values0 : option (list sr_val_t)) (cnt0 : Z) (ctx : plugin_ctx)
    (env : Provider.dp_env) (iface : if_interface) :
  interfaces ctx = [iface] ->
  Provider.sr_xpath_node_name (Provider.stack_xpath env) = Some "ipv4" ->
  Provider.alloc_rc env = SR_ERR_OK ->
  Provider.data_provider_cb c cb_xpath values0 cnt0 ctx env
  = Provider.dp_returns SR_ERR_OK
      (Some
         [ {| val_xpath :=
                Some (sprintf Provider.xpath_fmt
                        [Provider.c_str (name iface); "statistics/ipv4/mtu"]);
              val_type := SR_UINT16_T;
              val_data :=
                data_uint (counter (Provider.sh env) (cmd_mtu c) (key ctx) mod 2 ^ 16) |} ])
      1.
Proof.
  intros Hl Hn Ha.
  unfold Provider.data_provider_cb. rewrite Hl.
  cbn [Provider.dp_loop]. unfold Provider.dp_iface, Provider.sr_xpath_node_name_eq.
  cbn [Provider.xpath]. rewrite Hn. cbn [String.eqb Ascii.eqb Bool.eqb].
  match goal with
  | |- context [Provider.answer env 1 _ ?st] =>
      rewrite (answer_ipv4 c env (key ctx) (Provider.c_str (name iface)) st
                 eq_refl eq_refl Ha)
  end.
  reflexivity.
Qed.

Lemma data_provider_cb_ipv4_witness :
  exists v,
    Provider.data_provider_cb sample_scripts query_state_ipv4 None 0
      (sample_ctx [sample_interface "eth0" (Some "lan") 1500] writable_uci)
      {| Provider.stack_xpath := query_state_ipv4; Provider.sh := status_shell;
         Provider.alloc_rc := SR_ERR_OK |}
    = Provider.dp_returns SR_ERR_OK (Some v) 1
    /\ val_data <$> v = [data_uint 1500].
Proof.
  eexists. split.
  - apply (data_provider_cb_ipv4 sample_scripts query_state_ipv4 None 0
             (sample_ctx [sample_interface "eth0" (Some "lan") 1500] writable_uci)
             {| Provider.stack_xpath := query_state_ipv4; Provider.sh := status_shell;
                Provider.alloc_rc := SR_ERR_OK |}
             (sample_interface "eth0" (Some "lan") 1500)); reflexivity.
  - reflexivity.
Defined.

(** ** Neighbor discovery: which entry is kept *)

Lemma filter_incomplete (cache : list Neighbor.rtnl_neigh) :
  Forall (fun obj => Neighbor.complete obj = false) cache ->
  List.filter Neighbor.complete cache = [].
Proof.
  induction 1 as [|obj cache Hobj _ IH]; [reflexivity|].
  cbn [List.filter]. now rewrite Hobj.
Qed.

(** The output record and the buffer are left as they were when the
    socket cannot be allocated, the connection or the cache allocation
    fails, or no entry of the cache has both addresses. *)
Theorem neighbor_get_addr_unchanged (env : Neighbor.netlink_env) (m : Neighbor.memory) :
  Neighbor.socket_allocated env = false
  \/ Neighbor.connect_rc env <> SR_ERR_OK
  \/ Neighbor.cache_rc env <> SR_ERR_OK
  \/ Forall (fun obj => Neighbor.complete obj = false) (Neighbor.neighbor_cache env) ->
  Neighbor.neighbor_get_addr env m = m.
Proof.
  intros H. unfold Neighbor.neighbor_get_addr.
  destruct (Neighbor.socket_allocated env); cbn [negb]; [|reflexivity].
  destruct (Z.eqb_spec (Neighbor.connect_rc env) SR_ERR_OK); cbn [negb]; [|reflexivity].
  destruct (Z.eqb_spec (Neighbor.cache_rc env) SR_ERR_OK); cbn [negb]; [|reflexivity].
  destruct H as [H|[H|[H|H]]]; try discriminate; try contradiction.
  rewrite nl_cache_foreach_last, filter_incomplete by exact H. reflexivity.
Qed.

Lemma neighbor_get_addr_unchanged_witness :
  Neighbor.neighbor_get_addr
    (netlink_up [ {| Neighbor.lladdr := Some "00:11:22:33:44:55"; Neighbor.dst := None |};
                  {| Neighbor.lladdr := None; Neighbor.dst := Some "192.168.1.7" |} ])
    empty_memory
  = empty_memory.
Proof.
  apply neighbor_get_addr_unchanged. right. right. right.
  repeat constructor.
Defined.

(** ** Discovery: how answers compose *)

(** Discovering an answer in two parts is discovering the first part
    and then the second; the key and the UCI context are not touched,
    and an answer without interface names leaves the context as it
    was. *)
Theorem ls_interfaces_composes (oz : ip_origin) (first second : list nl_msg)
    (ctx : plugin_ctx) :
  ls_interfaces oz (first ++ second) ctx
    = ls_interfaces oz second (ls_interfaces oz first ctx)
  /\ key (ls_interfaces oz first ctx) = key ctx
  /\ uctx (ls_interfaces oz first ctx) = uctx ctx
  /\ (answer_names first = [] -> ls_interfaces oz first ctx = ctx).
Proof.
  split; [|split; [reflexivity|split; [reflexivity|]]].
  - unfold ls_interfaces, nl_recvmsgs_default.
    cbn [interfaces with_interfaces key uctx]. now rewrite fold_left_app.
  - intros Hn. unfold ls_interfaces. rewrite nl_recvmsgs_default_adds, Hn.
    destruct ctx; reflexivity.
Qed.

Lemma ls_interfaces_composes_witness :
  ls_interfaces ORIGIN_OTHER
    [ {| ifi_index := 1; ifi_attrs := [ {| rta_type := 4; rta_data := "mtu" |} ] |} ]
    (sample_ctx [sample_interface "eth0" None 1500] writable_uci)
  = sample_ctx [sample_interface "eth0" None 1500] writable_uci.
Proof.
  apply (ls_interfaces_composes ORIGIN_OTHER
           [ {| ifi_index := 1; ifi_attrs := [ {| rta_type := 4; rta_data := "mtu" |} ] |} ]
           []).
  reflexivity.
Defined.

(** ** Pull and push: what stays *)

Lemma sysrepo_to_model_iface_keeps (sess : sr_session_ctx_t) (iface : if_interface) :
  name (sysrepo_to_model_iface sess iface) = name iface
  /\ type (sysrepo_to_model_iface sess iface) = type iface
  /\ description (sysrepo_to_model_iface sess iface) = description iface.
Proof.
  unfold sysrepo_to_model_iface. destruct (name iface) as [n|] eqn:Hn; [|now rewrite Hn].
  pull_query sess (sprintf xpath_fmt_ipv4 [n; "enabled"]);
  pull_query sess (sprintf xpath_fmt_ipv4 [n; "forwarding"]);
  pull_query sess (sprintf xpath_fmt_ipv4 [n; "origin"]);
  pull_query sess (sprintf xpath_fmt_ipv4 [n; "mtu"]);
  pull_query sess (sprintf xpath_fmt [n; "name"]);
  pull_query sess (xpath_ip n (ip (address (ipv4 (proto iface)))));
  pull_query sess (xpath_prefix_length n);
  cbn; rewrite Hn; repeat split.
Qed.




Lemma model_to_uci_iface_untyped (k : uci_names) (u : uci_context) (iface : if_interface) :
  type iface = None -> model_to_uci_iface k u iface = u.
Proof. intros H. unfold model_to_uci_iface. now rewrite H. Qed.

(** Records whose type has not been resolved are skipped by the push:
    a registry of such records leaves the configuration store and the
    context as they were. *)
Theorem model_to_uci_untyped (k : uci_names) (ctx : plugin_ctx) :
  Forall (fun iface => type iface = None) (interfaces ctx) ->
  model_to_uci k ctx = (UCI_OK, ctx).
Proof.
  intros H. unfold model_to_uci. f_equal.
  assert (E : forall u, fold_left (model_to_uci_iface k) (interfaces ctx) u = u).
  { induction H as [|iface l Hi _ IH]; intros u; [reflexivity|].
    cbn [fold_left]. now rewrite model_to_uci_iface_untyped, IH. }
  rewrite E. destruct ctx; reflexivity.
Qed.

(** Records straight from discovery have no type: pushing them writes
    nothing. *)
Lemma model_to_uci_untyped_witness :
  let ctx := ls_interfaces ORIGIN_OTHER answer_lo_eth0_eth0 (sample_ctx [] writable_uci) in
  model_to_uci sample_names ctx = (UCI_OK, ctx).
Proof.
  cbv zeta. apply model_to_uci_untyped. repeat constructor.
Defined.

(** ** The change-notification handler: what every event keeps *)

Lemma model_to_uci_keeps (k : uci_names) (ctx : plugin_ctx) :
  interfaces (snd (model_to_uci k ctx)) = interfaces ctx
  /\ key (snd (model_to_uci k ctx)) = key ctx.
Proof. split; reflexivity. Qed.

(** Whatever the event and the answers of the datastore, the handler
    keeps the registry's records in place: same number, same names,
    types and descriptions, in the same order; the key is kept too. *)
Theorem module_change_cb_keeps_records (k : uci_names) (w : Z) (sess : sr_session_ctx_t)
    (event : sr_notif_event_t) (ctx : plugin_ctx) (env : process_env) :
  let ctx' := run_ctx (module_change_cb k w sess event ctx env) in
  map name (interfaces ctx') = map name (interfaces ctx)
  /\ map type (interfaces ctx') = map type (interfaces ctx)
  /\ map description (interfaces ctx') = map description (interfaces ctx)
  /\ length (interfaces ctx') = length (interfaces ctx)
  /\ key ctx' = key ctx.
Proof.
  cbv zeta. destruct (is_verify event) eqn:Hev.
  - unfold module_change_cb. rewrite Hev. repeat split.
  - rewrite module_change_cb_unfold by exact Hev.
    cbn [run_ctx model_to_uci sysrepo_to_model snd interfaces with_uctx with_interfaces key].
    rewrite !map_map, length_map.
    repeat split; apply map_ext; intros iface; apply sysrepo_to_model_iface_keeps.
Qed.

(** ** Push: what a section holds afterwards *)

Lemma uci_set_refused (u : uci_context) (section option value : string) :
  uci_refused (snd (uci_set u section option value)) = uci_refused u.
Proof. unfold uci_set. destruct (uci_refused u section option); reflexivity. Qed.

Lemma uci_set_same (u : uci_context) (section option value : string) :
  uci_options (snd (uci_set u section option value)) !! (section, option)
  = if uci_refused u section option then uci_options u !! (section, option)
    else Some value.
Proof.
  unfold uci_set. destruct (uci_refused u section option); cbn; [reflexivity|].
  apply lookup_insert_eq.
Qed.

Lemma uci_set_refused_lookup (u : uci_context) (section option value : string)
    (s o : string) :
  uci_refused u s o = true ->
  uci_options (snd (uci_set u section option value)) !! (s, o) = uci_options u !! (s, o).
Proof.
  intros H. destruct (decide ((s, o) = (section, option))) as [[= -> ->]|Hne].
  - now rewrite uci_set_same, H.
  - now apply uci_set_other.
Qed.

Lemma model_to_uci_iface_refused (k : uci_names) (u : uci_context) (iface : if_interface) :
  uci_refused (model_to_uci_iface k u iface) = uci_refused u.
Proof.
  unfold model_to_uci_iface. destruct (type iface); [|reflexivity].
  unfold set_operstate, set_origin, set_mtu, set_ip4. now rewrite !uci_set_refused.
Qed.

Lemma model_to_uci_loop_refused (k : uci_names) (l : list if_interface) (u : uci_context) :
  uci_refused (fold_left (model_to_uci_iface k) l u) = uci_refused u.
Proof.
  revert u. induction l as [|iface l IH]; intros u; [reflexivity|].
  cbn [fold_left]. now rewrite IH, model_to_uci_iface_refused.
Qed.

Lemma model_to_uci_iface_refused_lookup (k : uci_names) (u : uci_context)
    (iface : if_interface) (s o : string) :
  uci_refused u s o = true ->
  uci_options (model_to_uci_iface k u iface) !! (s, o) = uci_options u !! (s, o).
Proof.
  intros H. unfold model_to_uci_iface. destruct (type iface); [|reflexivity].
  unfold set_operstate, set_origin, set_mtu, set_ip4.
  rewrite !uci_set_refused_lookup; rewrite ?uci_set_refused; auto.
Qed.

Lemma model_to_uci_loop_refused_lookup (k : uci_names) (l : list if_interface)
    (u : uci_context) (s o : string) :
  uci_refused u s o = true ->
  uci_options (fold_left (model_to_uci_iface k) l u) !! (s, o) = uci_options u !! (s, o).
Proof.
  revert u. induction l as [|iface l IH]; intros u H; [reflexivity|].
  cbn [fold_left]. rewrite IH by now rewrite model_to_uci_iface_refused.
  now apply model_to_uci_iface_refused_lookup.
Qed.

Lemma NoDup_four {A} (a b c d : A) :
  NoDup [a; b; c; d] -> a <> b /\ a <> c /\ a <> d /\ b <> c /\ b <> d /\ c <> d.
Proof.
  intros H. apply NoDup_cons in H as [Ha H]. apply NoDup_cons in H as [Hb H].
  apply NoDup_cons in H as [Hc _].
  repeat split; intros ->;
    solve [apply Ha; repeat constructor | apply Hb; repeat constructor
          | apply Hc; repeat constructor].
Qed.

Lemma model_to_uci_iface_writes (k : uci_names) (u : uci_context) (iface : if_interface)
    (t o v : string) :
  type iface = Some t ->
  NoDup (written_options k) ->
  (o, v) ∈ pushed_options k iface ->
  uci_options (model_to_uci_iface k u iface) !! (t, o)
  = if uci_refused u t o then uci_options u !! (t, o) else Some v.
Proof.
  intros Ht Hnd Hin. unfold model_to_uci_iface. rewrite Ht.
  apply NoDup_four in Hnd as (D12 & D13 & D14 & D23 & D24 & D34).
  unfold pushed_options in Hin. rewrite !elem_of_cons in Hin.
  assert (Hk : forall a b : string, a <> b \/ b <> a -> (t, a) <> (t, b)).
  { intros a b [H|H] [=]; auto. }
  unfold set_operstate, set_origin, set_mtu, set_ip4.
  destruct Hin as [[= -> ->]|[[= -> ->]|[[= -> ->]|[[= -> ->]|Hin]]]].
  - rewrite !uci_set_other by (apply Hk; auto). apply uci_set_same.
  - rewrite !uci_set_other by (apply Hk; auto).
    rewrite uci_set_same, uci_set_refused.
    destruct (uci_refused u t (opt_origin k)); [|reflexivity].
    apply uci_set_other, Hk. auto.
  - rewrite uci_set_other by (apply Hk; auto).
    rewrite uci_set_same, !uci_set_refused.
    destruct (uci_refused u t (opt_mtu k)); [|reflexivity].
    rewrite !uci_set_other by (apply Hk; auto). reflexivity.
  - rewrite uci_set_same, !uci_set_refused.
    destruct (uci_refused u t (opt_ip4 k)); [|reflexivity].
    rewrite !uci_set_other by (apply Hk; auto). reflexivity.
  - now apply elem_of_nil in Hin.
Qed.

Lemma model_to_uci_writes_last (k : uci_names) (ctx : plugin_ctx)
    (before after : list if_interface) (iface : if_interface) (t o v : string) :
  interfaces ctx = before ++ iface :: after ->
  type iface = Some t ->
  Forall (fun later => type later <> Some t) after ->
  NoDup (written_options k) ->
  (o, v) ∈ pushed_options k iface ->
  uci_options (uctx (snd (model_to_uci k ctx))) !! (t, o)
  = if uci_refused (uctx ctx) t o then uci_options (uctx ctx) !! (t, o) else Some v.
Proof.
  intros Hl Ht Hafter Hnd Hin.
  cbn [model_to_uci snd uctx with_uctx]. rewrite Hl, fold_left_app. cbn [fold_left].
  rewrite model_to_uci_loop_other.
  2: { right. intros Hmem. apply list_elem_of_In, in_map_iff in Hmem.
       destruct Hmem as (later & Hty & Hmem).
       rewrite Forall_forall in Hafter. apply (Hafter later); [|now symmetry].
       now apply list_elem_of_In. }
  rewrite (model_to_uci_iface_writes k _ iface t o v Ht Hnd Hin).
  rewrite model_to_uci_loop_refused.
  destruct (uci_refused (uctx ctx) t o) eqn:Hr; [|reflexivity].
  now apply model_to_uci_loop_refused_lookup.
Qed.

(** With four distinct option names, the section named by a type holds
    after the push, for each of the four options, the value of the last
    record of that type, unless the store refuses the write: the option
    is then left as it was, and the other options are written all the
    same. *)
Theorem model_to_uci_last_of_type (k : uci_names) (ctx : plugin_ctx)
    (before after : list if_interface) (iface : if_interface) (t o v : string) :
  interfaces ctx = before ++ iface :: after ->
  type iface = Some t ->
  Forall (fun later => type later <> Some t) after ->
  NoDup (written_options k) ->
  (o, v) ∈ pushed_options k iface ->
  uci_options (uctx (snd (model_to_uci k ctx))) !! (t, o)
  = if uci_refused (uctx ctx) t o then uci_options (uctx ctx) !! (t, o) else Some v.
Proof. apply model_to_uci_writes_last. Qed.

(** Two records of type lan: after the push the mtu option of lan is
    the one of the second record. *)
Lemma model_to_uci_last_of_type_witness :
  uci_options
    (uctx (snd (model_to_uci sample_names
                  (sample_ctx [sample_interface "eth0" (Some "lan") 1500;
                               sample_interface "eth1" (Some "lan") 9000;
                               sample_interface "lo" None 65535] writable_uci))))
    !! ("lan", "mtu")
  = Some "9000".
Proof.
  apply (model_to_uci_last_of_type sample_names
           (sample_ctx [sample_interface "eth0" (Some "lan") 1500;
                        sample_interface "eth1" (Some "lan") 9000;
                        sample_interface "lo" None 65535] writable_uci)
           [sample_interface "eth0" (Some "lan") 1500] [sample_interface "lo" None 65535]
           (sample_interface "eth1" (Some "lan") 9000) "lan" "mtu" "9000").
  - reflexivity.
  - reflexivity.
  - repeat constructor. discriminate.
  - apply (bool_decide_unpack _). vm_compute. exact I.
  - apply (bool_decide_unpack _). vm_compute. exact I.
Defined.

(** ** Resolving the interface type *)

Lemma scan_sections_skips (n : string) (before l : list uci_section) :
  Forall (fun s => section_options s !! "ifname" <> Some n) before ->
  scan_sections (Some n) (before ++ l) = scan_sections (Some n) l.
Proof.
  induction 1 as [|s before Hs _ IH]; [reflexivity|].
  cbn [app scan_sections]. destruct (section_options s !! "ifname") as [v|]; [|exact IH].
  destruct (String.eqb_spec n v) as [->|_]; [now contradiction Hs|exact IH].
Qed.

Lemma scan_sections_named (n : string) (l : list uci_section) :
  scan_sections (Some n) l <> scan_fault.
Proof.
  induction l as [|s l IH]; [discriminate|].
  cbn [scan_sections]. destruct (section_options s !! "ifname") as [v|]; [|exact IH].
  destruct (String.eqb n v); [discriminate|exact IH].
Qed.

(** The type becomes the name of the first section, in file order,
    whose option [ifname] is the interface name; later sections with
    the same [ifname] are not looked at. *)
Theorem find_interface_type_first_match (up : uci_package) (n : string)
    (if_type : option string) (before after : list uci_section) (s : uci_section) :
  load_rc up = UCI_OK ->
  sections up = before ++ s :: after ->
  section_options s !! "ifname" = Some n ->
  Forall (fun s' => section_options s' !! "ifname" <> Some n) before ->
  find_interface_type up (Some n) if_type = Some (Some (section_name s)).
Proof.
  intros Hrc Hs Hopt Hbefore. unfold find_interface_type.
  rewrite Hrc, Hs. cbn [negb Z.eqb UCI_OK].
  rewrite scan_sections_skips by exact Hbefore.
  cbn [scan_sections]. now rewrite Hopt, String.eqb_refl.
Qed.

Lemma find_interface_type_first_match_witness :
  find_interface_type network_file (Some "eth0") None = Some (Some "lan").
Proof.
  apply (find_interface_type_first_match network_file "eth0" None
           [section "loopback" (Some "lo"); section "globals" None]
           [section "lan2" (Some "eth0")] (section "lan" (Some "eth0"))).
  - reflexivity.
  - reflexivity.
  - reflexivity.
  - repeat constructor; vm_compute; discriminate.
Defined.

(** When the package is loaded and no section has the interface name
    as its [ifname], the type is left as it was and nothing fails. *)
Theorem find_interface_type_unresolved (up : uci_package) (n : string)
    (if_type : option string) :
  load_rc up = UCI_OK ->
  Forall (fun s => section_options s !! "ifname" <> Some n) (sections up) ->
  find_interface_type up (Some n) if_type = Some if_type.
Proof.
  intros Hrc H. unfold find_interface_type. rewrite Hrc. cbn [negb Z.eqb UCI_OK].
  rewrite <- (app_nil_r (sections up)), scan_sections_skips by exact H. reflexivity.
Qed.

Lemma find_interface_type_unresolved_witness :
  find_interface_type network_file (Some "wlan0") (Some "old") = Some (Some "old").
Proof.
  apply find_interface_type_unresolved; [reflexivity|].
  repeat constructor; vm_compute; discriminate.
Defined.

(** ** Initial configuration *)

Lemma find_interface_type_named (up : uci_package) (n : string) (t : option string) :
  exists t', find_interface_type up (Some n) t = Some t'.
Proof.
  unfold find_interface_type. destruct (negb (load_rc up =? UCI_OK)); [eauto|].
  pose proof (scan_sections_named n (sections up)) as H.
  destruct (scan_sections (Some n) (sections up)); [eauto|eauto|contradiction].
Qed.

Lemma init_config_iface_named (cache : link_cache) (up : uci_package)
    (iface : if_interface) :
  name iface <> None ->
  exists iface', init_config_iface cache up iface = Some iface'
                 /\ initialised cache up iface iface'.
Proof.
  intros Hn. destruct (name iface) as [n|] eqn:En; [|contradiction].
  destruct (find_interface_type_named up n (type iface)) as [t Ht].
  unfold init_config_iface. rewrite En, Ht. cbn [mbind option_bind].
  eexists. split; [reflexivity|].
  unfold initialised, init_config_ipv4. cbn [name description type proto ipv4].
  rewrite En. destruct (cache (Some n)) as [link|]; cbn; repeat split; assumption.
Qed.

Lemma init_config_list (cache : link_cache) (up : uci_package) (l : list if_interface) :
  Forall (fun iface => name iface <> None) l ->
  exists l', mapM (init_config_iface cache up) l = Some l'
             /\ Forall2 (initialised cache up) l l'.
Proof.
  induction 1 as [|iface l Hn _ (l' & El & IH)]; [exists []; split; [reflexivity|constructor]|].
  destruct (init_config_iface_named cache up iface Hn) as (iface' & Ei & Hi).
  exists (iface' :: l'). split; [|now constructor].
  cbn [mapM]. rewrite Ei. cbn [mbind option_bind]. rewrite El. reflexivity.
Qed.

Lemma init_config_total (cache : link_cache) (up : uci_package) (ctx : plugin_ctx) :
  Forall (fun iface => name iface <> None) (interfaces ctx) ->
  exists ctx',
    init_config cache up ctx = Some (0, ctx')
    /\ key ctx' = key ctx
    /\ uctx ctx' = uctx ctx
    /\ Forall2 (initialised cache up) (interfaces ctx) (interfaces ctx').
Proof.
  intros H. destruct (init_config_list cache up (interfaces ctx) H) as (l' & El & Hl).
  exists (with_interfaces l' ctx). unfold init_config. rewrite El.
  repeat split. exact Hl.
Qed.

(** On a registry whose records all have a name, and with the network
    package loaded, [init_config] does not fault and returns [0], also
    when links or sections are missing. It keeps key and UCI context;
    record by record it keeps name, description, enabled, forwarding,
    origin and prefix length, sets the type as [find_interface_type]
    does, and takes address and MTU (16 bits) from the kernel link, or
    keeps them when the kernel has no link of that name. *)
Theorem init_config_named (cache : link_cache) (up : uci_package) (ctx : plugin_ctx) :
  Forall (fun iface => name iface <> None) (interfaces ctx) ->
  load_rc up = UCI_OK ->
  exists ctx',
    init_config cache up ctx = Some (0, ctx')
    /\ key ctx' = key ctx
    /\ uctx ctx' = uctx ctx
    /\ Forall2 (initialised cache up) (interfaces ctx) (interfaces ctx').
Proof. intros H _. now apply init_config_total. Qed.

(** eth0 has a kernel link (10.0.0.5, MTU 9000) and lo has none; the
    network file has a section for each. *)
Lemma init_config_named_witness :
  exists ctx',
    init_config one_link network_file
      (sample_ctx [sample_interface "eth0" None 1500; sample_interface "lo" None 0]
         writable_uci)
    = Some (0, ctx')
    /\ map type (interfaces ctx') = [Some "lan"; Some "loopback"]
    /\ map (fun iface => mtu (ipv4 (proto iface))) (interfaces ctx') = [9000; 0]
    /\ map (fun iface => ip (address (ipv4 (proto iface)))) (interfaces ctx')
       = ["10.0.0.5"; "192.168.1.1"].
Proof.
  destruct (init_config_named one_link network_file
              (sample_ctx [sample_interface "eth0" None 1500; sample_interface "lo" None 0]
                 writable_uci)) as (ctx' & E & _).
  - repeat constructor; discriminate.
  - reflexivity.
  - exists ctx'. split; [exact E|].
    vm_compute in E. injection E as <-. repeat split.
Defined.

(** With no kernel link found and a network package that is loaded but
    has no section for any of the names, [init_config] returns [0] and
    leaves a registry of named records as it was. *)
Theorem init_config_nothing_found (cache : link_cache) (up : uci_package)
    (ctx : plugin_ctx) :
  (forall n, cache n = None) ->
  load_rc up = UCI_OK ->
  Forall (fun iface =>
            exists n, name iface = Some n
                      /\ Forall (fun s => section_options s !! "ifname" <> Some n)
                           (sections up))
         (interfaces ctx) ->
  init_config cache up ctx = Some (0, ctx).
Proof.
  intros Hc Hrc Hall. unfold init_config.
  assert (E : mapM (init_config_iface cache up) (interfaces ctx) = Some (interfaces ctx)).
  { apply mapM_Some_2. apply Forall2_same_length_lookup_2; [reflexivity|].
    intros i x y Hx Hy. assert (y = x) as -> by congruence.
    rewrite Forall_forall in Hall.
    destruct (Hall x (list_elem_of_lookup_2 _ _ _ Hx)) as (n & Hn & Hs).
    unfold init_config_iface, init_config_ipv4, find_interface_type.
    rewrite Hc, Hrc, Hn. cbn [negb Z.eqb UCI_OK].
    rewrite <- (app_nil_r (sections up)), scan_sections_skips by exact Hs.
    cbn. destruct x as [? ? ? [?]]. cbn in Hn. now rewrite Hn. }
  rewrite E. cbn [mbind option_bind]. destruct ctx; reflexivity.
Qed.

Lemma init_config_nothing_found_witness :
  init_config (fun _ => None) network_file
    (sample_ctx [sample_interface "wlan0" None 1500] writable_uci)
  = Some (0, sample_ctx [sample_interface "wlan0" None 1500] writable_uci).
Proof.
  apply init_config_nothing_found; [reflexivity | reflexivity |].
  repeat constructor. exists "wlan0". split; [reflexivity|].
  repeat constructor; vm_compute; discriminate.
Defined.

(** ** Publishing the model *)

Lemma list_ascii_of_append (a b : string) :
  list_ascii_of_string (a +:+ b) = list_ascii_of_string a ++ list_ascii_of_string b.
Proof.
  induction a as [|c a IH]; [reflexivity|].
  change (String c a +:+ b) with (String c (a +:+ b)). cbn. now rewrite IH.
Qed.

Lemma append_inj_r (a b s : string) : a +:+ s = b +:+ s -> a = b.
Proof.
  intros H. apply (f_equal list_ascii_of_string) in H.
  rewrite !list_ascii_of_append in H. apply app_inv_tail in H.
  rewrite <- (string_of_list_ascii_of_string a), <- (string_of_list_ascii_of_string b).
  now rewrite H.
Qed.

Lemma last_char_app (a b : string) :
  b <> "" -> last_char (a +:+ b) = last_char b.
Proof.
  intros Hb. induction a as [|c a IH]; [reflexivity|].
  change (String c a +:+ b) with (String c (a +:+ b)). cbn [last_char]. rewrite IH.
  destruct b as [|c' b]; [contradiction|]. cbn [last_char].
  destruct (last_char b); reflexivity.
Qed.

Lemma interface_path_inj (n1 n2 tail1 tail2 : string) :
  interface_path n1 tail1 = interface_path n2 tail2 ->
  tail1 <> "" -> tail2 <> "" ->
  last_char tail1 = last_char tail2 /\ (tail1 = tail2 -> n1 = n2).
Proof.
  unfold interface_path. intros H H1 H2. split.
  - apply (f_equal last_char) in H.
    rewrite !last_char_app in H; auto.
    + intros E. destruct n2; discriminate || (now destruct tail2).
    + intros E. destruct n1; discriminate || (now destruct tail1).
  - intros ->. apply String.app_inj in H. now apply append_inj_r in H.
Qed.

(** Two paths of the interface subtree whose tails end differently, or
    whose tails agree and whose names differ, are different paths. *)
Ltac path_neq Hn :=
  let E := fresh "E" in
  let Hc := fresh "Hc" in
  let Hi := fresh "Hi" in
  intros E;
  destruct (interface_path_inj _ _ _ _ E) as [Hc Hi]; [discriminate | discriminate |];
  first [vm_compute in Hc; discriminate Hc | apply Hn; apply Hi; reflexivity].

Lemma published_paths_form (iface : if_interface) :
  published_paths iface
  = [ interface_path (Provider.c_str (name iface)) "']/type";
      interface_path (Provider.c_str (name iface)) "']/ietf-ip:ipv4/forwarding";
      interface_path (Provider.c_str (name iface)) "']/ietf-ip:ipv4/mtu";
      interface_path (Provider.c_str (name iface)) "']/ietf-ip:ipv4/enabled" ].
Proof. reflexivity. Qed.

Lemma published_paths_NoDup (iface : if_interface) : NoDup (published_paths iface).
Proof.
  rewrite published_paths_form.
  repeat (apply NoDup_cons; split); [..|apply NoDup_nil_2];
    rewrite ?elem_of_cons; intros H;
    repeat (destruct H as [H|H]; [revert H; path_neq H|]);
    now apply elem_of_nil in H.
Qed.

Lemma published_paths_disjoint (a b : if_interface) (p : string) :
  Provider.c_str (name a) <> Provider.c_str (name b) ->
  p ∈ published_paths a -> p ∉ published_paths b.
Proof.
  intros Hn Ha Hb. rewrite published_paths_form in Ha, Hb.
  rewrite !elem_of_cons in Ha, Hb.
  destruct Ha as [->|[->|[->|[->|Ha]]]]; [..|now apply elem_of_nil in Ha];
    (destruct Hb as [Hb|[Hb|[Hb|[Hb|Hb]]]]; [..|now apply elem_of_nil in Hb]);
    revert Hb; path_neq Hn.
Qed.

Lemma sr_set_item_other (ds : sr_datastore) (xpath p : string) (val : sr_val_t) :
  p <> xpath -> ds_items (snd (sr_set_item ds xpath val)) !! p = ds_items ds !! p.
Proof.
  intros H. unfold sr_set_item. destruct (ds_refused ds xpath); [reflexivity|].
  cbn. now apply lookup_insert_ne.
Qed.

Lemma sr_set_item_same (ds : sr_datastore) (xpath : string) (val : sr_val_t) :
  ds_items (snd (sr_set_item ds xpath val)) !! xpath
  = if ds_refused ds xpath then ds_items ds !! xpath
    else Some {| val_xpath := Some xpath; val_type := val_type val;
                 val_data := val_data val |}.
Proof.
  unfold sr_set_item. destruct (ds_refused ds xpath); [reflexivity|].
  cbn. apply lookup_insert_eq.
Qed.

Lemma sr_set_item_keeps (ds : sr_datastore) (xpath : string) (val : sr_val_t) :
  ds_refused (snd (sr_set_item ds xpath val)) = ds_refused ds
  /\ ds_commit_rc (snd (sr_set_item ds xpath val)) = ds_commit_rc ds
  /\ ds_commits (snd (sr_set_item ds xpath val)) = ds_commits ds.
Proof. unfold sr_set_item. destruct (ds_refused ds xpath); repeat split. Qed.

Lemma publish_iface_keeps (st : sr_datastore * sr_val_t) (iface : if_interface) :
  ds_refused (fst (sysrepo_commit_network_iface st iface)) = ds_refused (fst st)
  /\ ds_commit_rc (fst (sysrepo_commit_network_iface st iface)) = ds_commit_rc (fst st)
  /\ ds_commits (fst (sysrepo_commit_network_iface st iface)) = S (ds_commits (fst st)).
Proof.
  destruct st as [ds val]. unfold sysrepo_commit_network_iface, sr_commit.
  cbn [fst snd ds_refused ds_commit_rc ds_commits].
  repeat match goal with
  | |- context [sr_set_item ?d ?x ?v] =>
      destruct (sr_set_item_keeps d x v) as (-> & -> & ->)
  end.
  repeat split.
Qed.

Lemma publish_iface_other (st : sr_datastore * sr_val_t) (iface : if_interface)
    (p : string) :
  p ∉ published_paths iface ->
  ds_items (fst (sysrepo_commit_network_iface st iface)) !! p = ds_items (fst st) !! p.
Proof.
  intros H. destruct st as [ds val]. unfold published_paths in H.
  rewrite !not_elem_of_cons in H. destruct H as (H1 & H2 & H3 & H4 & _).
  unfold sysrepo_commit_network_iface, sr_commit. cbn [fst snd ds_items].
  now rewrite !sr_set_item_other.
Qed.

Lemma publish_iface_refused_lookup (st : sr_datastore * sr_val_t) (iface : if_interface)
    (p : string) :
  ds_refused (fst st) p = true ->
  ds_items (fst (sysrepo_commit_network_iface st iface)) !! p = ds_items (fst st) !! p.
Proof.
  intros H. destruct st as [ds val]. cbn [fst] in H.
  unfold sysrepo_commit_network_iface, sr_commit. cbn [fst snd ds_items].
  repeat match goal with
  | |- context [ds_items (snd (sr_set_item ?d ?x ?v)) !! p] =>
      let R := fresh "R" in
      assert (R : ds_items (snd (sr_set_item d x v)) !! p = ds_items d !! p);
      [ destruct (decide (p = x)) as [->|Hne];
        [ rewrite sr_set_item_same;
          repeat match goal with
          | |- context [ds_refused (snd (sr_set_item ?d' ?x' ?v'))] =>
              rewrite (proj1 (sr_set_item_keeps d' x' v'))
          end;
          now rewrite H
        | now apply sr_set_item_other ]
      | rewrite R; clear R ]
  end.
  reflexivity.
Qed.

Lemma publish_iface_writes (st : sr_datastore * sr_val_t) (iface : if_interface)
    (p : string) (item : sr_val_t) :
  (p, item) ∈ published_items iface ->
  ds_items (fst (sysrepo_commit_network_iface st iface)) !! p
  = if ds_refused (fst st) p then ds_items (fst st) !! p else Some item.
Proof.
  intros Hin. destruct st as [ds val]. cbn [fst].
  pose proof (published_paths_NoDup iface) as Hnd. unfold published_paths in Hnd.
  apply NoDup_four in Hnd as (D12 & D13 & D14 & D23 & D24 & D34).
  unfold published_items in Hin. rewrite !elem_of_cons in Hin.
  unfold sysrepo_commit_network_iface, sr_commit. cbn [fst snd ds_items].
  destruct Hin as [[= -> ->]|[[= -> ->]|[[= -> ->]|[[= -> ->]|Hin]]]].
  - rewrite !sr_set_item_other by auto. apply sr_set_item_same.
  - rewrite !sr_set_item_other by auto. rewrite sr_set_item_same.
    rewrite (proj1 (sr_set_item_keeps _ _ _)).
    destruct (ds_refused ds _); [|reflexivity]. now apply sr_set_item_other.
  - rewrite sr_set_item_other by auto. rewrite sr_set_item_same.
    rewrite !(proj1 (sr_set_item_keeps _ _ _)).
    destruct (ds_refused ds _); [|reflexivity]. now rewrite !sr_set_item_other by auto.
  - rewrite sr_set_item_same. rewrite !(proj1 (sr_set_item_keeps _ _ _)).
    destruct (ds_refused ds _); [|reflexivity]. now rewrite !sr_set_item_other by auto.
  - now apply elem_of_nil in Hin.
Qed.

Lemma publish_loop_keeps (l : list if_interface) (st : sr_datastore * sr_val_t) :
  ds_refused (fst (fold_left sysrepo_commit_network_iface l st)) = ds_refused (fst st)
  /\ ds_commit_rc (fst (fold_left sysrepo_commit_network_iface l st))
     = ds_commit_rc (fst st)
  /\ ds_commits (fst (fold_left sysrepo_commit_network_iface l st))
     = (length l + ds_commits (fst st))%nat.
Proof.
  revert st. induction l as [|iface l IH]; intros st; [repeat split|].
  cbn [fold_left length]. destruct (IH (sysrepo_commit_network_iface st iface))
    as (-> & -> & ->).
  destruct (publish_iface_keeps st iface) as (-> & -> & ->). repeat split. lia.
Qed.

Lemma publish_loop_other (l : list if_interface) (st : sr_datastore * sr_val_t)
    (p : string) :
  Forall (fun iface => p ∉ published_paths iface) l ->
  ds_items (fst (fold_left sysrepo_commit_network_iface l st)) !! p
  = ds_items (fst st) !! p.
Proof.
  intros H. revert st. induction H as [|iface l Hi _ IH]; intros st; [reflexivity|].
  cbn [fold_left]. rewrite IH. now apply publish_iface_other.
Qed.

Lemma publish_loop_refused_lookup (l : list if_interface) (st : sr_datastore * sr_val_t)
    (p : string) :
  ds_refused (fst st) p = true ->
  ds_items (fst (fold_left sysrepo_commit_network_iface l st)) !! p
  = ds_items (fst st) !! p.
Proof.
  revert st. induction l as [|iface l IH]; intros st H; [reflexivity|].
  cbn [fold_left]. rewrite IH.
  - now apply publish_iface_refused_lookup.
  - now rewrite (proj1 (publish_iface_keeps st iface)).
Qed.

(** The publication reports success whatever the writes and commits
    answered, commits once per record, and changes no item other than
    the type, forwarding, mtu and enabled items of the records. *)
Theorem sysrepo_commit_network_frame (ds : sr_datastore) (ctx : plugin_ctx) :
  let ds' := snd (sysrepo_commit_network ds ctx) in
  fst (sysrepo_commit_network ds ctx) = SR_ERR_OK
  /\ ds_commits ds' = (length (interfaces ctx) + ds_commits ds)%nat
  /\ ds_refused ds' = ds_refused ds
  /\ (forall p, Forall (fun iface => p ∉ published_paths iface) (interfaces ctx) ->
                ds_items ds' !! p = ds_items ds !! p).
Proof.
  cbv zeta. unfold sysrepo_commit_network. cbn [fst snd].
  destruct (publish_loop_keeps (interfaces ctx) (ds, Provider.zero_val)) as (Hr & _ & Hc).
  repeat split; [exact Hc | exact Hr |].
  intros p Hp. now rewrite publish_loop_other.
Qed.

Lemma sysrepo_commit_network_frame_witness :
  let ctx := sample_ctx [sample_interface "eth0" None 1500; sample_interface "lo" None 0]
               writable_uci in
  let p := "/ietf-interfaces:interfaces/interface[name='eth0']/ietf-ip:ipv4/origin" in
  ds_commits (snd (sysrepo_commit_network empty_datastore ctx)) = 2%nat
  /\ ds_items (snd (sysrepo_commit_network empty_datastore ctx)) !! p = None.
Proof.
  cbv zeta.
  destruct (sysrepo_commit_network_frame empty_datastore
              (sample_ctx [sample_interface "eth0" None 1500; sample_interface "lo" None 0]
                 writable_uci)) as (_ & Hc & _ & Hf).
  split; [exact Hc|].
  rewrite Hf; [reflexivity|].
  repeat constructor; apply (bool_decide_unpack _); vm_compute; exact I.
Defined.

Lemma publish_last_named (ds : sr_datastore) (ctx : plugin_ctx)
    (before after : list if_interface) (iface : if_interface)
    (p : string) (item : sr_val_t) :
  interfaces ctx = before ++ iface :: after ->
  Forall (fun later => Provider.c_str (name later) <> Provider.c_str (name iface)) after ->
  (p, item) ∈ published_items iface ->
  ds_items (snd (sysrepo_commit_network ds ctx)) !! p
  = if ds_refused ds p then ds_items ds !! p else Some item.
Proof.
  intros Hl Hafter Hin. unfold sysrepo_commit_network. cbn [snd].
  rewrite Hl, fold_left_app. cbn [fold_left].
  assert (Hp : p ∈ published_paths iface).
  { unfold published_items in Hin. unfold published_paths.
    rewrite !elem_of_cons in Hin. rewrite !elem_of_cons.
    destruct Hin as [[= -> _]|[[= -> _]|[[= -> _]|[[= -> _]|Hin]]]]; auto.
    now apply elem_of_nil in Hin. }
  rewrite publish_loop_other.
  2: { eapply Forall_impl; [exact Hafter|]. intros later Hn.
       apply (published_paths_disjoint iface later p); auto. }
  rewrite (publish_iface_writes _ iface p item Hin).
  rewrite (proj1 (publish_loop_keeps before (ds, Provider.zero_val))). cbn [fst].
  destruct (ds_refused ds p) eqn:Hr; [|reflexivity].
  now apply publish_loop_refused_lookup.
Qed.

(** For each of its four items, the datastore holds after the
    publication the value of the last record of a given name, unless
    the write of that item is refused: the item is then left as it was,
    and the other items are written all the same. *)
Theorem sysrepo_commit_network_last_named (ds : sr_datastore) (ctx : plugin_ctx)
    (before after : list if_interface) (iface : if_interface)
    (p : string) (item : sr_val_t) :
  interfaces ctx = before ++ iface :: after ->
  Forall (fun later => Provider.c_str (name later) <> Provider.c_str (name iface)) after ->
  (p, item) ∈ published_items iface ->
  ds_items (snd (sysrepo_commit_network ds ctx)) !! p
  = if ds_refused ds p then ds_items ds !! p else Some item.
Proof. apply publish_last_named. Qed.

Lemma sysrepo_commit_network_last_named_witness :
  ds_items
    (snd (sysrepo_commit_network empty_datastore
            (sample_ctx [sample_interface "eth0" None 1500;
                         sample_interface "eth0" None 9000;
                         sample_interface "lo" None 0] writable_uci)))
    !! "/ietf-interfaces:interfaces/interface[name='eth0']/ietf-ip:ipv4/mtu"
  = Some {| val_xpath :=
              Some "/ietf-interfaces:interfaces/interface[name='eth0']/ietf-ip:ipv4/mtu";
            val_type := SR_UINT16_T; val_data := data_uint 9000 |}.
Proof.
  apply (sysrepo_commit_network_last_named empty_datastore
           (sample_ctx [sample_interface "eth0" None 1500;
                        sample_interface "eth0" None 9000;
                        sample_interface "lo" None 0] writable_uci)
           [sample_interface "eth0" None 1500] [sample_interface "lo" None 0]
           (sample_interface "eth0" None 9000)).
  - reflexivity.
  - repeat constructor. discriminate.
  - unfold published_items. rewrite !elem_of_cons. right. right. left. reflexivity.
Defined.

(** ** Reading the datastore *)





(** ** Plugin initialisation *)

Lemma discovered_named (oz : ip_origin) (answer : list nl_msg) (l : list if_interface) :
  Forall (fun iface => name iface <> None) l ->
  Forall (fun iface => name iface <> None)
    (nl_recvmsgs_default (ls_interfaces_cb oz) answer l).
Proof.
  intros H. rewrite nl_recvmsgs_default_adds. apply Forall_app. split; [|exact H].
  apply Forall_rev, Forall_forall. intros iface Hin.
  apply list_elem_of_In, in_map_iff in Hin. destruct Hin as (n & <- & _). discriminate.
Qed.

Lemma initialised_names (cache : link_cache) (up : uci_package)
    (l l' : list if_interface) :
  Forall2 (initialised cache up) l l' -> map name l' = map name l.
Proof.
  induction 1 as [|x y l l' Hxy _ IH]; [reflexivity|].
  cbn [map]. rewrite IH. destruct Hxy as (-> & _). reflexivity.
Qed.

(** When the UCI context cannot be allocated, the initialisation gives
    up but returns [SR_ERR_OK]: the caller is told of a success while
    its private pointer is not set, nothing is subscribed and the
    context is freed. The global registry has been filled all the same. *)
Theorem sr_plugin_init_cb_without_uci (oz : ip_origin) (env : init_env)
    (globals : list if_interface) (ds : sr_datastore) :
  uci_alloc_context env = None ->
  sr_plugin_init_cb oz env globals ds
  = Some {| init_rc := SR_ERR_OK;
            init_interfaces :=
              rev (map (make_interface_ipv4 oz) (answer_names (kernel_answer env)))
              ++ globals;
            init_datastore := ds;
            init_private_ctx := caller_ptr;
            init_subscriptions := [];
            init_ctx := None;
            init_ctx_freed := true;
            init_unsubscribed := true |}.
Proof.
  intros H. unfold sr_plugin_init_cb. rewrite H.
  now rewrite nl_recvmsgs_default_adds.
Qed.

Lemma sr_plugin_init_cb_without_uci_witness :
  exists r, sr_plugin_init_cb ORIGIN_OTHER (sample_init_env None 0 0) [] empty_datastore
            = Some r
            /\ init_rc r = SR_ERR_OK
            /\ init_private_ctx r = caller_ptr
            /\ map name (init_interfaces r) = [Some "eth0"; Some "lo"].
Proof.
  eexists. split.
  - apply sr_plugin_init_cb_without_uci. reflexivity.
  - repeat split.
Defined.

(** Whatever the outcome, the subscription for operational data is
    made with the pointer found in the caller's slot at the call, never
    with the context being set up; only the subscription for changes
    gets the new context. *)
Theorem sr_plugin_init_cb_private_pointers (oz : ip_origin) (env : init_env)
    (globals : list if_interface) (ds : sr_datastore) (r : init_result) :
  sr_plugin_init_cb oz env globals ds = Some r ->
  Forall (fun sub => sub_private sub = match sub_callback sub with
                                       | cb_data_provider => caller_ptr
                                       | cb_module_change => new_ctx
                                       end) (init_subscriptions r)
  /\ (init_rc r = SR_ERR_OK -> init_ctx_freed r = false ->
      init_subscriptions r
      = [ {| sub_path := "/ietf-interfaces:interfaces-state";
             sub_callback := cb_data_provider; sub_private := caller_ptr |};
          {| sub_path := "ietf-interfaces";
             sub_callback := cb_module_change; sub_private := new_ctx |} ]).
Proof.
  unfold sr_plugin_init_cb. intros H.
  destruct (uci_alloc_context env) as [u|].
  - destruct (init_config _ _ _) as [[rc0 ctx']|]; [|discriminate].
    cbn [mbind option_bind] in H.
    destruct (sysrepo_commit_network ds ctx') as [rc1 ds'].
    destruct (negb (dp_subscribe_rc env =? SR_ERR_OK));
      [|destruct (negb (change_subscribe_rc env =? SR_ERR_OK))];
      injection H as <-; cbn; split; try (repeat constructor); try discriminate.
  - injection H as <-. cbn. split; [constructor|discriminate].
Qed.

Lemma sr_plugin_init_cb_private_pointers_witness :
  exists r,
    sr_plugin_init_cb ORIGIN_OTHER (sample_init_env (Some writable_uci) 0 0) []
      empty_datastore = Some r
    /\ map sub_private (init_subscriptions r) = [caller_ptr; new_ctx].
Proof.
  destruct (sr_plugin_init_cb ORIGIN_OTHER (sample_init_env (Some writable_uci) 0 0) []
              empty_datastore) as [r|] eqn:E; [|vm_compute in E; discriminate].
  exists r. split; [reflexivity|].
  destruct (sr_plugin_init_cb_private_pointers _ _ _ _ r E) as [_ H].
  rewrite H; [reflexivity| |]; vm_compute in E; injection E as <-; reflexivity.
Defined.

(** On a global registry whose records have names, and with the
    network package loaded, the initialisation does not fault, and
    whether it succeeds or gives up it leaves in the global registry one
    new record per interface name of the kernel's answer, in front of
    the records found there: a second run adds the same records again. *)
Theorem sr_plugin_init_cb_fills_registry (oz : ip_origin) (env : init_env)
    (globals : list if_interface) (ds : sr_datastore) :
  Forall (fun iface => name iface <> None) globals ->
  load_rc (network_package env) = UCI_OK ->
  exists r,
    sr_plugin_init_cb oz env globals ds = Some r
    /\ map name (init_interfaces r)
       = map Some (rev (answer_names (kernel_answer env))) ++ map name globals
    /\ Forall (fun iface => name iface <> None) (init_interfaces r).
Proof.
  intros Hg _. unfold sr_plugin_init_cb.
  pose proof (discovered_named oz (kernel_answer env) globals Hg) as Hd.
  assert (Hnames : map name (nl_recvmsgs_default (ls_interfaces_cb oz)
                               (kernel_answer env) globals)
                   = map Some (rev (answer_names (kernel_answer env)))
                     ++ map name globals).
  { rewrite nl_recvmsgs_default_adds, map_app, map_rev, map_map, map_rev. reflexivity. }
  destruct (uci_alloc_context env) as [u|].
  - destruct (init_config_total (kernel_links env) (network_package env)
                {| key := "bla";
                   interfaces := nl_recvmsgs_default (ls_interfaces_cb oz)
                                   (kernel_answer env) globals;
                   uctx := u |} Hd) as (ctx' & -> & _ & _ & Hi).
    cbn [mbind option_bind interfaces] in *.
    assert (En : map name (interfaces ctx')
                 = map Some (rev (answer_names (kernel_answer env)))
                   ++ map name globals)
      by now rewrite (initialised_names _ _ _ _ Hi).
    assert (Hn' : Forall (fun iface => name iface <> None) (interfaces ctx')).
    { apply Forall_forall. intros iface Hin E.
      assert (Hmem : None ∈ map name (interfaces ctx')).
      { rewrite <- E. apply list_elem_of_In, in_map. now apply list_elem_of_In. }
      rewrite (initialised_names _ _ _ _ Hi) in Hmem.
      apply list_elem_of_In, in_map_iff in Hmem. destruct Hmem as (x & Hx & Hin').
      rewrite Forall_forall in Hd. apply (Hd x); [now apply list_elem_of_In|exact Hx]. }
    destruct (sysrepo_commit_network ds ctx') as [rc1 ds'].
    destruct (negb (dp_subscribe_rc env =? SR_ERR_OK));
      [|destruct (negb (change_subscribe_rc env =? SR_ERR_OK))];
      eexists; (split; [reflexivity|]); cbn [init_interfaces]; split; assumption.
  - eexists. split; [reflexivity|]. cbn [init_interfaces]. split; assumption.
Qed.

(** Two initialisations in a row: the registry holds every name twice. *)
Lemma sr_plugin_init_cb_fills_registry_witness :
  exists r1 r2,
    sr_plugin_init_cb ORIGIN_OTHER (sample_init_env (Some writable_uci) 0 0) []
      empty_datastore = Some r1
    /\ sr_plugin_init_cb ORIGIN_OTHER (sample_init_env (Some writable_uci) 0 0)
         (init_interfaces r1) (init_datastore r1) = Some r2
    /\ map name (init_interfaces r2)
       = [Some "eth0"; Some "lo"; Some "eth0"; Some "lo"].
Proof.
  destruct (sr_plugin_init_cb_fills_registry ORIGIN_OTHER
              (sample_init_env (Some writable_uci) 0 0) [] empty_datastore)
    as (r1 & E1 & N1 & F1); [constructor | reflexivity |].
  destruct (sr_plugin_init_cb_fills_registry ORIGIN_OTHER
              (sample_init_env (Some writable_uci) 0 0) (init_interfaces r1)
              (init_datastore r1) F1 eq_refl)
    as (r2 & E2 & N2 & _).
  exists r1, r2. split; [exact E1|]. split; [exact E2|].
  rewrite N2, N1. reflexivity.
Defined.

(** When the subscription for changes fails after the one for
    operational data succeeded, the initialisation returns the failure
    code, but the caller's private pointer has already been set to the
    context, which is freed on the way out. *)
Theorem sr_plugin_init_cb_change_subscription_fails (oz : ip_origin) (env : init_env)
    (globals : list if_interface) (ds : sr_datastore) (u : uci_context) :
  Forall (fun iface => name iface <> None) globals ->
  uci_alloc_context env = Some u ->
  dp_subscribe_rc env = SR_ERR_OK ->
  change_subscribe_rc env <> SR_ERR_OK ->
  exists r,
    sr_plugin_init_cb oz env globals ds = Some r
    /\ init_rc r = change_subscribe_rc env
    /\ init_private_ctx r = new_ctx
    /\ init_ctx_freed r = true.
Proof.
  intros Hg Hu Hdp Hch. unfold sr_plugin_init_cb. rewrite Hu.
  pose proof (discovered_named oz (kernel_answer env) globals Hg) as Hd.
  destruct (init_config_total (kernel_links env) (network_package env)
              {| key := "bla";
                 interfaces := nl_recvmsgs_default (ls_interfaces_cb oz)
                                 (kernel_answer env) globals;
                 uctx := u |} Hd) as (ctx' & -> & _).
  cbn [mbind option_bind].
  destruct (sysrepo_commit_network ds ctx') as [rc1 ds'].
  rewrite Hdp. cbn [negb Z.eqb SR_ERR_OK].
  destruct (Z.eqb_spec (change_subscribe_rc env) SR_ERR_OK); [contradiction|].
  cbn [negb]. eexists. split; [reflexivity|]. repeat split.
Qed.

Lemma sr_plugin_init_cb_change_subscription_fails_witness :
  exists r,
    sr_plugin_init_cb ORIGIN_OTHER (sample_init_env (Some writable_uci) 0 4) []
      empty_datastore = Some r
    /\ init_rc r = 4
    /\ init_private_ctx r = new_ctx
    /\ init_ctx_freed r = true.
Proof.
  apply (sr_plugin_init_cb_change_subscription_fails ORIGIN_OTHER
           (sample_init_env (Some writable_uci) 0 4) [] empty_datastore writable_uci).
  - constructor.
  - reflexivity.
  - reflexivity.
  - discriminate.
Defined.

(** * The running process *)

(** ** The pull, turn by turn *)

(** A turn that does not end the process leaves each attribute as the
    merge policy has it, at the path the turn queried. *)
Lemma sysrepo_to_model_turn_merges (libc : Process.overlapping_sprintf)
    (sess : sr_session_ctx_t) (val val' : Process.val_ptr) (iface iface' : if_interface)
    (n : string) (a : attribute) :
  name iface = Some n ->
  Process.sysrepo_to_model_iface libc sess val iface = Process.turn_done val' iface' ->
  Process.merged libc sess a n iface iface'.
Proof.
  intros Hn. unfold Process.sysrepo_to_model_iface, Process.merged. rewrite Hn.
  pull_query sess (sprintf xpath_fmt_ipv4 [n; "enabled"]);
  pull_query sess (sprintf xpath_fmt_ipv4 [n; "forwarding"]);
  pull_query sess (sprintf xpath_fmt_ipv4 [n; "origin"]);
  pull_query sess (sprintf xpath_fmt_ipv4 [n; "mtu"]);
  pull_query sess (sprintf xpath_fmt [n; "name"]);
  (destruct (Process.xpath_ip libc n (ip (address (ipv4 (proto iface)))))
     as [p_ip|] eqn:Eip; [|discriminate]);
  pull_query sess p_ip;
  (destruct (Process.xpath_prefix_length libc n
               (prefix_length (subnet (address (ipv4 (proto iface))))))
     as [p_pl|] eqn:Epl; [|discriminate]);
  pull_query sess p_pl;
  (destruct val; cbn [Process.sr_free_val]; intros [= <- <-] || discriminate);
  destruct a; cbn [Process.attribute_query];
  (eexists; split; [first [reflexivity | eassumption]|]);
  repeat match goal with H : sr_get_item _ _ = _ |- _ => rewrite H; clear H end;
  cbn; split; intros; congruence.
Qed.

Lemma sysrepo_to_model_loop_done (libc : Process.overlapping_sprintf)
    (sess : sr_session_ctx_t) (l : list if_interface) :
  forall (val : Process.val_ptr) (l' : list if_interface),
    Process.sysrepo_to_model_loop libc sess val l = (true, l') ->
    forall (i : nat) (iface : if_interface),
      l !! i = Some iface ->
      exists v v' iface',
        l' !! i = Some iface'
        /\ Process.sysrepo_to_model_iface libc sess v iface = Process.turn_done v' iface'.
Proof.
  induction l as [|x l IH]; intros val l' H i iface Hi; [destruct i; discriminate|].
  cbn [Process.sysrepo_to_model_loop] in H.
  destruct (Process.sysrepo_to_model_iface libc sess val x) as [v' x'|x'] eqn:Ex;
    [|discriminate].
  destruct (Process.sysrepo_to_model_loop libc sess v' l) as [finished l''] eqn:El.
  injection H as -> <-.
  destruct i as [|i]; cbn in Hi |- *.
  - injection Hi as <-. eauto.
  - eapply IH; eauto.
Qed.

(** The pull has one return statement: when it returns, the code is
    [SR_ERR_OK]. *)
Lemma sysrepo_to_model_returns_ok (libc : Process.overlapping_sprintf)
    (sess : sr_session_ctx_t) (ctx : plugin_ctx) (rc : Z) :
  fst (Process.sysrepo_to_model libc sess ctx) = Some rc -> rc = SR_ERR_OK.
Proof.
  unfold Process.sysrepo_to_model.
  destruct (Process.sysrepo_to_model_loop libc sess Process.val_null (interfaces ctx))
    as [[|] l]; cbn; congruence.
Qed.

Lemma sysrepo_to_model_keeps_store (libc : Process.overlapping_sprintf)
    (sess : sr_session_ctx_t) (ctx : plugin_ctx) :
  key (snd (Process.sysrepo_to_model libc sess ctx)) = key ctx
  /\ uctx (snd (Process.sysrepo_to_model libc sess ctx)) = uctx ctx.
Proof.
  unfold Process.sysrepo_to_model.
  destruct (Process.sysrepo_to_model_loop libc sess Process.val_null (interfaces ctx))
    as [finished l]. split; reflexivity.
Qed.

Lemma sysrepo_to_model_merges (libc : Process.overlapping_sprintf)
    (sess : sr_session_ctx_t) (ctx : plugin_ctx) (i : nat) (iface : if_interface)
    (n : string) (a : attribute) :
  fst (Process.sysrepo_to_model libc sess ctx) = Some SR_ERR_OK ->
  interfaces ctx !! i = Some iface ->
  name iface = Some n ->
  exists iface',
    interfaces (snd (Process.sysrepo_to_model libc sess ctx)) !! i = Some iface'
    /\ Process.merged libc sess a n iface iface'.
Proof.
  unfold Process.sysrepo_to_model. intros H Hi Hn.
  destruct (Process.sysrepo_to_model_loop libc sess Process.val_null (interfaces ctx))
    as [[|] l] eqn:El; [|discriminate].
  destruct (sysrepo_to_model_loop_done libc sess _ _ _ El i iface Hi)
    as (v & v' & iface' & Hi' & Ht).
  exists iface'. split; [exact Hi'|].
  exact (sysrepo_to_model_turn_merges libc sess v v' iface iface' n a Hn Ht).
Qed.

(** ** The handler *)

Lemma module_change_cb_dies (k : uci_names) (w : Z) (libc : Process.overlapping_sprintf)
    (sess : sr_session_ctx_t) (event : sr_notif_event_t) (ctx : plugin_ctx)
    (env : process_env) :
  is_verify event = false ->
  fst (Process.sysrepo_to_model libc sess ctx) = None ->
  Process.module_change_cb k w libc sess event ctx env
  = {| Process.run_ctx := snd (Process.sysrepo_to_model libc sess ctx);
       Process.run_trace := [];
       Process.run_end := None |}.
Proof.
  intros Hev H. unfold Process.module_change_cb. rewrite Hev.
  destruct (Process.sysrepo_to_model libc sess ctx) as [[rc|] ctx1];
    [discriminate|reflexivity].
Qed.

Lemma module_change_cb_goes_on (k : uci_names) (w : Z)
    (libc : Process.overlapping_sprintf) (sess : sr_session_ctx_t)
    (event : sr_notif_event_t) (ctx : plugin_ctx) (env : process_env) :
  is_verify event = false ->
  fst (Process.sysrepo_to_model libc sess ctx) = Some SR_ERR_OK ->
  Process.module_change_cb k w libc sess event ctx env
  = {| Process.run_ctx := snd (model_to_uci k (snd (Process.sysrepo_to_model libc sess ctx)));
       Process.run_trace := fst (restart_network w env);
       Process.run_end := Some match snd (restart_network w env) with
                               | Returns _ => Returns SR_ERR_OK
                               | Replaced => Replaced
                               | Exits status => Exits status
                               end |}.
Proof.
  intros Hev H. unfold Process.module_change_cb. rewrite Hev.
  destruct (Process.sysrepo_to_model libc sess ctx) as [[rc|] ctx1]; [|discriminate].
  cbn [fst] in H. injection H as ->.
  cbn [model_to_uci snd Z.eqb SR_ERR_OK UCI_OK negb].
  destruct (restart_network w env) as [trace ended]. reflexivity.
Qed.

(** Every run that gets through the pull makes the system calls of the
    handler over the merge, whatever the datastore answered. *)
Lemma module_change_cb_same_calls (k : uci_names) (w : Z)
    (libc : Process.overlapping_sprintf) (sess : sr_session_ctx_t)
    (event : sr_notif_event_t) (ctx : plugin_ctx) (env : process_env) :
  fst (Process.sysrepo_to_model libc sess ctx) = Some SR_ERR_OK ->
  Process.run_trace (Process.module_change_cb k w libc sess event ctx env)
  = run_trace (module_change_cb k w sess event ctx env)
  /\ Process.run_end (Process.module_change_cb k w libc sess event ctx env)
     = Some (run_outcome (module_change_cb k w sess event ctx env)).
Proof.
  intros H. destruct (is_verify event) eqn:Hev.
  - unfold Process.module_change_cb, module_change_cb. rewrite Hev. split; reflexivity.
  - rewrite (module_change_cb_goes_on k w libc sess event ctx env Hev H).
    rewrite (module_change_cb_unfold k w sess event ctx env Hev).
    split; reflexivity.
Qed.

(** What a run of the handler that gets through the pull has done, on
    an event other than verify: the registry is merged, the store holds
    what the push wrote, and the restart has been requested. *)
Lemma module_change_cb_applies (k : uci_names) (w : Z)
    (libc : Process.overlapping_sprintf) (sess : sr_session_ctx_t)
    (event : sr_notif_event_t) (ctx : plugin_ctx) (env : process_env) :
  is_verify event = false ->
  fst (Process.sysrepo_to_model libc sess ctx) = Some SR_ERR_OK ->
  let r := Process.module_change_cb k w libc sess event ctx env in
  (forall i iface n a,
      interfaces ctx !! i = Some iface -> name iface = Some n ->
      exists iface', interfaces (Process.run_ctx r) !! i = Some iface'
                     /\ Process.merged libc sess a n iface iface')
  /\ (forall before iface' after t o v,
        interfaces (Process.run_ctx r) = before ++ iface' :: after ->
        type iface' = Some t ->
        Forall (fun later => type later <> Some t) after ->
        NoDup (written_options k) ->
        (o, v) ∈ pushed_options k iface' ->
        uci_options (uctx (Process.run_ctx r)) !! (t, o)
        = if uci_refused (uctx ctx) t o then uci_options (uctx ctx) !! (t, o)
          else Some v)
  /\ Process.run_trace r = fst (restart_network w env)
  /\ forks (Process.run_trace r) = 1%nat
  /\ (0 < fork_result env -> In (sys_sleep w) (Process.run_trace r))
  /\ Process.run_end r = Some match snd (restart_network w env) with
                              | Returns _ => Returns SR_ERR_OK
                              | Replaced => Replaced
                              | Exits status => Exits status
                              end.
Proof.
  intros Hev H. cbv zeta. rewrite (module_change_cb_goes_on k w libc sess event ctx env Hev H).
  cbn [Process.run_ctx Process.run_trace Process.run_end].
  destruct (sysrepo_to_model_keeps_store libc sess ctx) as [_ Hu].
  split; [|split; [|split; [|split; [|split]]]].
  - intros i iface n a Hi Hn.
    exact (sysrepo_to_model_merges libc sess ctx i iface n a H Hi Hn).
  - intros before iface' after t o v Hl Ht Hafter Hnd Hin. rewrite <- Hu.
    cbn [model_to_uci snd interfaces with_uctx] in Hl.
    exact (model_to_uci_writes_last k (snd (Process.sysrepo_to_model libc sess ctx))
             before after iface' t o v Hl Ht Hafter Hnd Hin).
  - reflexivity.
  - apply restart_network_forks_once.
  - intros Hpid. now apply restart_network_in_caller.
  - reflexivity.
Qed.

(** ** Pull: the merge policy *)



(** The pull does not always get to its end. Here lo has an answer in
    the datastore and br has none: the turn for lo frees the value it
    got, the turn for br gets no value and frees the same pointer again,
    and the process is ended before the handler reaches the restart. *)
Example sysrepo_to_model_frees_twice :
  let ctx := sample_ctx [sample_interface "lo" (Some "loopback") 1500;
                         sample_interface "br" (Some "lan") 1500] writable_uci in
  fst (Process.sysrepo_to_model Process.exact_fit session_lo_enabled ctx) = None
  /\ Process.run_trace
       (Process.module_change_cb sample_names 3 Process.exact_fit session_lo_enabled
          SR_EV_APPLY ctx in_parent) = []
  /\ Process.run_end
       (Process.module_change_cb sample_names 3 Process.exact_fit session_lo_enabled
          SR_EV_APPLY ctx in_parent) = None.
Proof. cbv zeta. repeat split. Qed.

(** ** The handler, event by event *)

(** C1, as the code has it: on an apply event the failure of a single
    datastore query or store write is absorbed where it happens. The
    pull reports success whenever it returns and the push always does,
    so the handler never hands a failure code to its caller. When the
    pull gets to its end, a failed query leaves its attribute as it was
    and a successful one overwrites it, the store holds what the push
    wrote (nothing is rolled back), and the restart is requested: one
    [fork], and the handler ends the way the restart ends. *)
Theorem module_change_cb_never_aborts (k : uci_names) (w : Z)
    (libc : Process.overlapping_sprintf) (sess : sr_session_ctx_t) (ctx : plugin_ctx)
    (env : process_env) :
  let r := Process.module_change_cb k w libc sess SR_EV_APPLY ctx env in
  (forall rc, fst (Process.sysrepo_to_model libc sess ctx) = Some rc -> rc = SR_ERR_OK)
  /\ (forall c, fst (model_to_uci k c) = UCI_OK)
  /\ (forall rc, Process.run_end r = Some (Returns rc) -> rc = SR_ERR_OK)
  /\ (fst (Process.sysrepo_to_model libc sess ctx) = Some SR_ERR_OK ->
      (forall i iface n a,
          interfaces ctx !! i = Some iface -> name iface = Some n ->
          exists iface', interfaces (Process.run_ctx r) !! i = Some iface'
                         /\ Process.merged libc sess a n iface iface')
      /\ (forall before iface' after t o v,
            interfaces (Process.run_ctx r) = before ++ iface' :: after ->
            type iface' = Some t ->
            Forall (fun later => type later <> Some t) after ->
            NoDup (written_options k) ->
            (o, v) ∈ pushed_options k iface' ->
            uci_options (uctx (Process.run_ctx r)) !! (t, o)
            = if uci_refused (uctx ctx) t o then uci_options (uctx ctx) !! (t, o)
              else Some v)
      /\ Process.run_trace r = fst (restart_network w env)
      /\ forks (Process.run_trace r) = 1%nat
      /\ Process.run_end r = Some match snd (restart_network w env) with
                                  | Returns _ => Returns SR_ERR_OK
                                  | Replaced => Replaced
                                  | Exits status => Exits status
                                  end).
Proof.
  cbv zeta. split; [|split; [|split]].
  - intros rc. apply sysrepo_to_model_returns_ok.
  - reflexivity.
  - intros rc.
    destruct (fst (Process.sysrepo_to_model libc sess ctx)) as [rc0|] eqn:E.
    + rewrite (sysrepo_to_model_returns_ok libc sess ctx rc0 E) in E.
      rewrite (module_change_cb_goes_on k w libc sess SR_EV_APPLY ctx env eq_refl E).
      cbn [Process.run_end].
      destruct (snd (restart_network w env)); congruence.
    + rewrite (module_change_cb_dies k w libc sess SR_EV_APPLY ctx env eq_refl E).
      discriminate.
  - intros H.
    destruct (module_change_cb_applies k w libc sess SR_EV_APPLY ctx env eq_refl H)
      as (Hm & Hp & Ht & Hf & _ & He).
    repeat split; assumption.
Qed.

(** The same on a sample: lo is enabled by the datastore, the store
    takes the writes, and the handler forks once. *)
Lemma module_change_cb_never_aborts_witness :
  let ctx := sample_ctx [sample_interface "lo" (Some "loopback") 1500] writable_uci in
  let r := Process.module_change_cb sample_names 3 Process.exact_fit session_lo_enabled
             SR_EV_APPLY ctx in_child in
  forks (Process.run_trace r) = 1%nat
  /\ Process.run_end r = Some (Returns SR_ERR_OK)
  /\ uci_options (uctx (Process.run_ctx r)) !! ("loopback", "enabled") = Some "1".
Proof.
  cbv zeta.
  destruct (module_change_cb_never_aborts sample_names 3 Process.exact_fit
              session_lo_enabled
              (sample_ctx [sample_interface "lo" (Some "loopback") 1500] writable_uci)
              in_child) as (_ & _ & _ & H).
  destruct (H eq_refl) as (_ & Hp & _ & Hf & He).
  split; [exact Hf|]. split; [exact He|].
  apply (Hp [] (set_enabled true (sample_interface "lo" (Some "loopback") 1500)) []
            "loopback" "enabled" "1").
  - reflexivity.
  - reflexivity.
  - constructor.
  - apply (bool_decide_unpack _). vm_compute. exact I.
  - apply (bool_decide_unpack _). vm_compute. exact I.
Defined.

(** C1, as stated, fails: every datastore query of the apply event
    fails with an internal error and the store refuses every write, yet
    the handler returns [SR_ERR_OK] in the process that [fork] answered
    with [0], the restart having been requested; in the process that
    called [fork] it does not return at all. *)
Lemma module_change_cb_absorbs_failures :
  let ctx := sample_ctx [sample_interface "lo" (Some "loopback") 1500] refusing_uci in
  let r := Process.module_change_cb sample_names 3 Process.exact_fit session_broken
             SR_EV_APPLY ctx in_child in
  (forall xpath, fst (sr_get_item session_broken xpath) = SR_ERR_INTERNAL)
  /\ fst (set_mtu sample_names (uctx ctx) "loopback" 1500) = UCI_ERR_IO
  /\ Process.run_end r = Some (Returns SR_ERR_OK)
  /\ Process.run_trace r = [sys_fork]
  /\ Process.run_end
       (Process.module_change_cb sample_names 3 Process.exact_fit session_broken
          SR_EV_APPLY ctx in_parent)
     = Some Replaced.
Proof. cbv zeta. repeat split. Qed.

(** C9: a verify event returns success at once, with the context
    untouched and no system call. An abort event runs exactly as an
    apply event does, and when its pull gets to its end the three steps
    have been carried out: the registry holds the merged attributes,
    the store holds what the push wrote, and the restart has been
    requested, with one [fork] and, in the process that called it, the
    sleep for the delay. *)
Theorem module_change_cb_abort_as_apply (k : uci_names) (w : Z)
    (libc : Process.overlapping_sprintf) (sess : sr_session_ctx_t) (ctx : plugin_ctx)
    (env : process_env) :
  let r := Process.module_change_cb k w libc sess SR_EV_ABORT ctx env in
  Process.module_change_cb k w libc sess SR_EV_VERIFY ctx env
    = {| Process.run_ctx := ctx; Process.run_trace := [];
         Process.run_end := Some (Returns SR_ERR_OK) |}
  /\ r = Process.module_change_cb k w libc sess SR_EV_APPLY ctx env
  /\ (fst (Process.sysrepo_to_model libc sess ctx) = Some SR_ERR_OK ->
      (forall i iface n a,
          interfaces ctx !! i = Some iface -> name iface = Some n ->
          exists iface', interfaces (Process.run_ctx r) !! i = Some iface'
                         /\ Process.merged libc sess a n iface iface')
      /\ (forall before iface' after t o v,
            interfaces (Process.run_ctx r) = before ++ iface' :: after ->
            type iface' = Some t ->
            Forall (fun later => type later <> Some t) after ->
            NoDup (written_options k) ->
            (o, v) ∈ pushed_options k iface' ->
            uci_options (uctx (Process.run_ctx r)) !! (t, o)
            = if uci_refused (uctx ctx) t o then uci_options (uctx ctx) !! (t, o)
              else Some v)
      /\ Process.run_trace r = fst (restart_network w env)
      /\ forks (Process.run_trace r) = 1%nat
      /\ (0 < fork_result env -> In (sys_sleep w) (Process.run_trace r))).
Proof.
  cbv zeta. split; [reflexivity|]. split; [reflexivity|].
  intros H.
  destruct (module_change_cb_applies k w libc sess SR_EV_ABORT ctx env eq_refl H)
    as (Hm & Hp & Ht & Hf & Hs & _).
  repeat split; assumption.
Qed.

(** An abort event on a sample: the datastore holds [mtu = 9000] for
    lo; after the handler the record and the store have that MTU, and
    the calling process has forked and slept. *)
Lemma module_change_cb_abort_as_apply_witness :
  let ctx := sample_ctx [sample_interface "lo" (Some "loopback") 1500] writable_uci in
  let r := Process.module_change_cb sample_names 3 Process.exact_fit session_lo_mtu
             SR_EV_ABORT ctx in_parent in
  (exists iface', interfaces (Process.run_ctx r) !! 0%nat = Some iface'
                  /\ attribute_of attr_mtu iface' = value_uint 9000)
  /\ uci_options (uctx (Process.run_ctx r)) !! ("loopback", "mtu") = Some "9000"
  /\ forks (Process.run_trace r) = 1%nat
  /\ In (sys_sleep 3) (Process.run_trace r).
Proof.
  cbv zeta.
  destruct (module_change_cb_abort_as_apply sample_names 3 Process.exact_fit
              session_lo_mtu
              (sample_ctx [sample_interface "lo" (Some "loopback") 1500] writable_uci)
              in_parent) as (_ & _ & H).
  destruct (H eq_refl) as (Hm & Hp & _ & Hf & Hs).
  split; [|split; [|split]].
  - destruct (Hm 0%nat (sample_interface "lo" (Some "loopback") 1500) "lo" attr_mtu
                eq_refl eq_refl) as (iface' & Hi & p & Hq & Hok & _).
    injection Hq as <-. exists iface'. split; [exact Hi|]. apply Hok. reflexivity.
  - apply (Hp [] (set_mtu_field 9000 (sample_interface "lo" (Some "loopback") 1500)) []
              "loopback" "mtu" "9000").
    + reflexivity.
    + reflexivity.
    + constructor.
    + apply (bool_decide_unpack _). vm_compute. exact I.
    + apply (bool_decide_unpack _). vm_compute. exact I.
  - exact Hf.
  - apply Hs. reflexivity.
Defined.

(** On an event other than verify, the handler returns to its caller
    exactly when the pull gets to its end and [fork] does not give a
    positive pid, and then with [SR_ERR_OK]. When the process is ended
    in the pull, nothing has been written to the store and no system
    call has been made. When the pull gets to its end and [fork] gave
    the pid of a new process, the handler sleeps for the delay and does
    not return. *)
Theorem module_change_cb_returns_iff (k : uci_names) (w : Z)
    (libc : Process.overlapping_sprintf) (sess : sr_session_ctx_t)
    (event : sr_notif_event_t) (ctx : plugin_ctx) (env : process_env) :
  is_verify event = false ->
  let r := Process.module_change_cb k w libc sess event ctx env in
  (Process.run_end r = Some (Returns SR_ERR_OK)
   <-> fst (Process.sysrepo_to_model libc sess ctx) = Some SR_ERR_OK
       /\ fork_result env <= 0)
  /\ ((exists rc, Process.run_end r = Some (Returns rc))
      <-> fst (Process.sysrepo_to_model libc sess ctx) = Some SR_ERR_OK
          /\ fork_result env <= 0)
  /\ (fst (Process.sysrepo_to_model libc sess ctx) = None ->
      Process.run_trace r = [] /\ Process.run_end r = None
      /\ uctx (Process.run_ctx r) = uctx ctx)
  /\ (fst (Process.sysrepo_to_model libc sess ctx) = Some SR_ERR_OK ->
      0 < fork_result env -> In (sys_sleep w) (Process.run_trace r)).
Proof.
  intros Hev. cbv zeta.
  destruct (fst (Process.sysrepo_to_model libc sess ctx)) as [rc|] eqn:E.
  - rewrite (sysrepo_to_model_returns_ok libc sess ctx rc E) in E |- *.
    rewrite (module_change_cb_goes_on k w libc sess event ctx env Hev E).
    cbn [Process.run_end Process.run_trace].
    destruct (Z_le_gt_dec (fork_result env) 0) as [Hle|Hgt].
    + rewrite restart_network_elsewhere by exact Hle. cbn [snd fst].
      repeat split; intros; try lia; try discriminate; try reflexivity.
      now exists SR_ERR_OK.
    + destruct (restart_network_in_caller w env ltac:(lia)) as [Hsleep Hnr].
      split; [|split; [|split]].
      * split; [|lia]. intros Hr.
        destruct (snd (restart_network w env)) as [[]| |]; [|discriminate..].
        now contradiction Hnr.
      * split; [|lia]. intros [rc' Hr].
        destruct (snd (restart_network w env)) as [[]| |]; [|discriminate..].
        now contradiction Hnr.
      * discriminate.
      * intros _ _. exact Hsleep.
  - rewrite (module_change_cb_dies k w libc sess event ctx env Hev E).
    cbn [Process.run_end Process.run_trace Process.run_ctx].
    destruct (sysrepo_to_model_keeps_store libc sess ctx) as [_ Hu].
    split; [|split; [|split]].
    + split; [discriminate|]. intros [H _]. discriminate.
    + split; [intros [rc H]; discriminate|]. intros [H _]. discriminate.
    + intros _. repeat split. exact Hu.
    + discriminate.
Qed.

Lemma module_change_cb_returns_iff_witness :
  let ctx := sample_ctx [sample_interface "lo" (Some "loopback") 1500] writable_uci in
  Process.run_end
    (Process.module_change_cb sample_names 3 Process.exact_fit session_lo_enabled
       SR_EV_ABORT ctx in_child)
  = Some (Returns SR_ERR_OK)
  /\ In (sys_sleep 3)
       (Process.run_trace
          (Process.module_change_cb sample_names 3 Process.exact_fit session_lo_enabled
             SR_EV_ABORT ctx in_parent)).
Proof.
  cbv zeta.
  pose proof (module_change_cb_returns_iff sample_names 3 Process.exact_fit
                session_lo_enabled SR_EV_ABORT
                (sample_ctx [sample_interface "lo" (Some "loopback") 1500] writable_uci)
                in_child eq_refl) as Hchild.
  pose proof (module_change_cb_returns_iff sample_names 3 Process.exact_fit
                session_lo_enabled SR_EV_ABORT
                (sample_ctx [sample_interface "lo" (Some "loopback") 1500] writable_uci)
                in_parent eq_refl) as Hparent.
  cbv zeta in Hchild, Hparent.
  destruct Hchild as ([_ Hreturns] & _). destruct Hparent as (_ & _ & _ & Hsleeps).
  split.
  - apply Hreturns. split; [reflexivity|]. cbn. lia.
  - apply Hsleeps; [reflexivity|]. cbn. lia.
Defined.

(** ** Publication followed by a pull *)




